(** * remoting/protocol/libjingle_transport_factory.cc

    A shallow embedding of [LibjingleStreamTransport] and
    [LibjingleTransportFactory].  The transport is a single-threaded object
    driven by its owner (Initialize, Connect, AddRemoteCandidate) and by the
    completion callbacks and signals of three collaborators it creates or is
    given: the P2P transport channel, the PseudoTcp adapter and the channel
    authenticator.  Member functions are written in a small state-and-fault
    monad over a [World]: the object's fields, whether [delete this] has
    run, and the chronological trace of the calls the object makes on its
    collaborators and on its owner.

    Conventions.  A [scoped_ptr], a raw pointer and a [base::Callback] are
    options, [None] being NULL or the null callback.  A DCHECK that fails
    stops the run, as in a debug build.  There is one thread, so
    [DCHECK(CalledOnValidThread())] always holds and is left out.  What a
    collaborator answers or reports is an input: the result of
    [socket_->Connect] is an argument of [Connect], and completions arrive
    as events. *)

From Stdlib Require Import ZArith String List Bool Lia.
Import ListNotations.
Open Scope Z_scope.

(** ** Declarations the translation unit takes from its headers *)

(** [remoting::protocol::TransportConfig], as far as this file reads it. *)
Record TransportConfig := {
  nat_traversal : bool;
  min_port : Z;
  max_port : Z
}.

(** What the included headers declare and this file only names: handle and
    value types it never looks into, the two [net::] result codes it
    compares against, the three [cricket::] allocator flags it combines, and
    the value a default-constructed [TransportConfig] has. *)
Class Externals : Type := {
  NetworkManager : Type;       (* talk_base::NetworkManager* *)
  PacketSocketFactory : Type;  (* talk_base::PacketSocketFactory* *)
  EventHandler : Type;         (* Transport::EventHandler* (non-NULL) *)
  Candidate : Type;            (* cricket::Candidate *)
  StreamSocket : Type;         (* the net::StreamSocket an authenticator returns *)
  ConnectedCallback : Type;    (* a bound StreamTransport::ConnectedCallback *)
  OK : Z;                      (* net::OK *)
  ERR_IO_PENDING : Z;          (* net::ERR_IO_PENDING *)
  PORTALLOCATOR_DISABLE_TCP : Z;
  PORTALLOCATOR_DISABLE_STUN : Z;
  PORTALLOCATOR_DISABLE_RELAY : Z;
  TransportConfig_default : TransportConfig
}.

(** ** A state-and-fault monad

    A member function either finishes in a new state or stops at a fault:
    a DCHECK that does not hold, a NULL pointer followed, a call on a deleted
    object.  [NotEnabled] marks an event that its source cannot raise in the
    state at hand (a completion callback nobody holds). *)

Inductive Fault :=
| DCheckFailed
| NullDereference
| UseAfterDelete
| NotEnabled.

Inductive Result (A : Type) :=
| Ok (a : A)
| Err (f : Fault).
Arguments Ok {A} a.
Arguments Err {A} f.

Definition M (W A : Type) : Type := W -> Result (A * W).

Definition ret {W A} (a : A) : M W A := fun w => Ok (a, w).

Definition bind {W A B} (m : M W A) (k : A -> M W B) : M W B :=
  fun w => match m w with
           | Ok (a, w') => k a w'
           | Err f => Err f
           end.

Definition fault {W A} (f : Fault) : M W A := fun _ => Err f.

Notation "x <- m ;; k" := (bind m (fun x => k))
  (at level 61, m at next level, right associativity).
Notation "m ;; k" := (bind m (fun _ => k))
  (at level 61, right associativity).

Definition DCHECK {W} (b : bool) : M W unit :=
  if b then ret tt else fault DCheckFailed.

(** [p->...] on a pointer that may be NULL, and [Run()] on a callback that
    may be null. *)
Definition deref {W A} (p : option A) : M W A :=
  match p with
  | Some a => ret a
  | None => fault NullDereference
  end.

Definition guard {W} (b : bool) : M W unit :=
  if b then ret tt else fault NotEnabled.

Definition is_null {A} (p : option A) : bool :=
  match p with Some _ => false | None => true end.

Section StreamTransport.
Context {E : Externals}.

(** ** Constants of the anonymous namespace *)

Definition kTcpAckDelayMilliseconds : Z := 10.
Definition kTcpReceiveBufferSize : Z := 256 * 1024.
Definition kTcpSendBufferSize : Z := kTcpReceiveBufferSize + 30 * 1024.

(** ** The collaborators, as far as the transport drives them *)

Inductive AllocatorKind := HttpPortAllocator | BasicPortAllocator.

(** A [cricket::PortAllocator]: which class was instantiated, with which
    constructor arguments, and what [set_flags] and [SetPortRange] were last
    given ([None]: not called, the constructor's own value stands). *)
Record PortAllocator := {
  allocator_kind : AllocatorKind;
  allocator_network_manager : NetworkManager;
  allocator_socket_factory : PacketSocketFactory;
  flags : option Z;
  port_range : option (Z * Z)
}.

(** A [cricket::P2PTransportChannel]: its name, which of its two signals are
    connected to this transport's slots, and whether [Connect()] was called. *)
Record P2PTransportChannel := {
  channel_name : string;
  SignalRequestSignaling : bool;
  SignalCandidateReady : bool;
  channel_connect_called : bool
}.

(** A [jingle_glue::PseudoTcpAdapter] over the channel's socket adapter: the
    four settings, and whether it still holds the unfired completion callback
    of a [Connect] that returned [ERR_IO_PENDING]. *)
Record PseudoTcpAdapter := {
  send_buffer_size : option Z;
  receive_buffer_size : option Z;
  no_delay : option bool;
  ack_delay : option Z;
  connect_callback : bool
}.

(** A [ChannelAuthenticator]: the raw socket [SecureAndAuthenticate] handed
    it, and whether it still holds the unfired done-callback. *)
Record ChannelAuthenticator := {
  raw_socket : option PseudoTcpAdapter;
  done_callback : bool
}.

(** ** The object *)

(** The data members, in declaration order.  [http_port_allocator_] is a raw
    pointer that is either NULL or aliases the object [port_allocator_]
    owns, so it is kept as the fact of being non-NULL. *)
Record LibjingleStreamTransport := {
  network_manager_ : NetworkManager;
  socket_factory_ : PacketSocketFactory;
  name_ : string;
  config_ : TransportConfig;
  event_handler_ : option EventHandler;
  callback_ : option ConnectedCallback;
  authenticator_ : option ChannelAuthenticator;
  port_allocator_ : option PortAllocator;
  http_port_allocator_ : bool;
  channel_ : option P2PTransportChannel;
  socket_ : option PseudoTcpAdapter
}.

(** Calls that leave the object, in the order they are made.  A run of the
    owner's callback records the object as the callee finds it. *)
Inductive Call :=
| CallbackRun (cb : ConnectedCallback) (socket : option StreamSocket)
              (seen : LibjingleStreamTransport)
| OnTransportCandidate (h : EventHandler) (c : Candidate)
| OnTransportDeleted (h : EventHandler)
| ChannelConnect
| ChannelOnCandidate (c : Candidate)
| ChannelOnSignalingReady
| SocketConnect (s : PseudoTcpAdapter)
| SecureAndAuthenticate (raw : option PseudoTcpAdapter).

(** [destroyed_callback]: a [TransportChannelSocketAdapter] holding
    [OnChannelDestroyed] bound to this object exists (it travels with the
    PseudoTcp adapter to the authenticator and on to the owner). *)
Record World := {
  this : LibjingleStreamTransport;
  deleted : bool;
  destroyed_callback : bool;
  trace : list Call
}.

(** ** Access to the world *)

Definition get : M World LibjingleStreamTransport := fun w => Ok (this w, w).

Definition modify (f : LibjingleStreamTransport -> LibjingleStreamTransport)
  : M World unit :=
  fun w => Ok (tt, {| this := f (this w); deleted := deleted w;
                      destroyed_callback := destroyed_callback w;
                      trace := trace w |}).

Definition call (c : Call) : M World unit :=
  fun w => Ok (tt, {| this := this w; deleted := deleted w;
                      destroyed_callback := destroyed_callback w;
                      trace := trace w ++ [c] |}).

(** ** Field updates *)

Definition set_name_ (v : string) (t : LibjingleStreamTransport) :=
  {| network_manager_ := network_manager_ t; socket_factory_ := socket_factory_ t;
     name_ := v; config_ := config_ t; event_handler_ := event_handler_ t;
     callback_ := callback_ t; authenticator_ := authenticator_ t;
     port_allocator_ := port_allocator_ t;
     http_port_allocator_ := http_port_allocator_ t;
     channel_ := channel_ t; socket_ := socket_ t |}.

Definition set_config_ (v : TransportConfig) (t : LibjingleStreamTransport) :=
  {| network_manager_ := network_manager_ t; socket_factory_ := socket_factory_ t;
     name_ := name_ t; config_ := v; event_handler_ := event_handler_ t;
     callback_ := callback_ t; authenticator_ := authenticator_ t;
     port_allocator_ := port_allocator_ t;
     http_port_allocator_ := http_port_allocator_ t;
     channel_ := channel_ t; socket_ := socket_ t |}.

Definition set_event_handler_ (v : option EventHandler) (t : LibjingleStreamTransport) :=
  {| network_manager_ := network_manager_ t; socket_factory_ := socket_factory_ t;
     name_ := name_ t; config_ := config_ t; event_handler_ := v;
     callback_ := callback_ t; authenticator_ := authenticator_ t;
     port_allocator_ := port_allocator_ t;
     http_port_allocator_ := http_port_allocator_ t;
     channel_ := channel_ t; socket_ := socket_ t |}.

Definition set_callback_ (v : option ConnectedCallback) (t : LibjingleStreamTransport) :=
  {| network_manager_ := network_manager_ t; socket_factory_ := socket_factory_ t;
     name_ := name_ t; config_ := config_ t; event_handler_ := event_handler_ t;
     callback_ := v; authenticator_ := authenticator_ t;
     port_allocator_ := port_allocator_ t;
     http_port_allocator_ := http_port_allocator_ t;
     channel_ := channel_ t; socket_ := socket_ t |}.

Definition set_authenticator_ (v : option ChannelAuthenticator) (t : LibjingleStreamTransport) :=
  {| network_manager_ := network_manager_ t; socket_factory_ := socket_factory_ t;
     name_ := name_ t; config_ := config_ t; event_handler_ := event_handler_ t;
     callback_ := callback_ t; authenticator_ := v;
     port_allocator_ := port_allocator_ t;
     http_port_allocator_ := http_port_allocator_ t;
     channel_ := channel_ t; socket_ := socket_ t |}.

Definition set_port_allocator_ (v : option PortAllocator) (t : LibjingleStreamTransport) :=
  {| network_manager_ := network_manager_ t; socket_factory_ := socket_factory_ t;
     name_ := name_ t; config_ := config_ t; event_handler_ := event_handler_ t;
     callback_ := callback_ t; authenticator_ := authenticator_ t;
     port_allocator_ := v;
     http_port_allocator_ := http_port_allocator_ t;
     channel_ := channel_ t; socket_ := socket_ t |}.

Definition set_http_port_allocator_ (v : bool) (t : LibjingleStreamTransport) :=
  {| network_manager_ := network_manager_ t; socket_factory_ := socket_factory_ t;
     name_ := name_ t; config_ := config_ t; event_handler_ := event_handler_ t;
     callback_ := callback_ t; authenticator_ := authenticator_ t;
     port_allocator_ := port_allocator_ t;
     http_port_allocator_ := v;
     channel_ := channel_ t; socket_ := socket_ t |}.

Definition set_channel_ (v : option P2PTransportChannel) (t : LibjingleStreamTransport) :=
  {| network_manager_ := network_manager_ t; socket_factory_ := socket_factory_ t;
     name_ := name_ t; config_ := config_ t; event_handler_ := event_handler_ t;
     callback_ := callback_ t; authenticator_ := authenticator_ t;
     port_allocator_ := port_allocator_ t;
     http_port_allocator_ := http_port_allocator_ t;
     channel_ := v; socket_ := socket_ t |}.

Definition set_socket_ (v : option PseudoTcpAdapter) (t : LibjingleStreamTransport) :=
  {| network_manager_ := network_manager_ t; socket_factory_ := socket_factory_ t;
     name_ := name_ t; config_ := config_ t; event_handler_ := event_handler_ t;
     callback_ := callback_ t; authenticator_ := authenticator_ t;
     port_allocator_ := port_allocator_ t;
     http_port_allocator_ := http_port_allocator_ t;
     channel_ := channel_ t; socket_ := v |}.

(** ** Calls on the owned collaborators *)

Definition HttpPortAllocator_new (network_manager : NetworkManager)
    (socket_factory : PacketSocketFactory) : PortAllocator :=
  {| allocator_kind := HttpPortAllocator;
     allocator_network_manager := network_manager;
     allocator_socket_factory := socket_factory;
     flags := None; port_range := None |}.

Definition BasicPortAllocator_new (network_manager : NetworkManager)
    (socket_factory : PacketSocketFactory) : PortAllocator :=
  {| allocator_kind := BasicPortAllocator;
     allocator_network_manager := network_manager;
     allocator_socket_factory := socket_factory;
     flags := None; port_range := None |}.

Definition set_flags (f : Z) (a : PortAllocator) : PortAllocator :=
  {| allocator_kind := allocator_kind a;
     allocator_network_manager := allocator_network_manager a;
     allocator_socket_factory := allocator_socket_factory a;
     flags := Some f; port_range := port_range a |}.

Definition SetPortRange (lo hi : Z) (a : PortAllocator) : PortAllocator :=
  {| allocator_kind := allocator_kind a;
     allocator_network_manager := allocator_network_manager a;
     allocator_socket_factory := allocator_socket_factory a;
     flags := flags a; port_range := Some (lo, hi) |}.

Definition P2PTransportChannel_new (name : string) : P2PTransportChannel :=
  {| channel_name := name; SignalRequestSignaling := false;
     SignalCandidateReady := false; channel_connect_called := false |}.

Definition SignalRequestSignaling_connect (c : P2PTransportChannel) :=
  {| channel_name := channel_name c; SignalRequestSignaling := true;
     SignalCandidateReady := SignalCandidateReady c;
     channel_connect_called := channel_connect_called c |}.

Definition SignalCandidateReady_connect (c : P2PTransportChannel) :=
  {| channel_name := channel_name c;
     SignalRequestSignaling := SignalRequestSignaling c;
     SignalCandidateReady := true;
     channel_connect_called := channel_connect_called c |}.

Definition channel_Connect (c : P2PTransportChannel) :=
  {| channel_name := channel_name c;
     SignalRequestSignaling := SignalRequestSignaling c;
     SignalCandidateReady := SignalCandidateReady c;
     channel_connect_called := true |}.

Definition PseudoTcpAdapter_new : PseudoTcpAdapter :=
  {| send_buffer_size := None; receive_buffer_size := None;
     no_delay := None; ack_delay := None; connect_callback := false |}.

Definition SetSendBufferSize (n : Z) (s : PseudoTcpAdapter) :=
  {| send_buffer_size := Some n; receive_buffer_size := receive_buffer_size s;
     no_delay := no_delay s; ack_delay := ack_delay s;
     connect_callback := connect_callback s |}.

Definition SetReceiveBufferSize (n : Z) (s : PseudoTcpAdapter) :=
  {| send_buffer_size := send_buffer_size s; receive_buffer_size := Some n;
     no_delay := no_delay s; ack_delay := ack_delay s;
     connect_callback := connect_callback s |}.

Definition SetNoDelay (b : bool) (s : PseudoTcpAdapter) :=
  {| send_buffer_size := send_buffer_size s;
     receive_buffer_size := receive_buffer_size s;
     no_delay := Some b; ack_delay := ack_delay s;
     connect_callback := connect_callback s |}.

Definition SetAckDelay (ms : Z) (s : PseudoTcpAdapter) :=
  {| send_buffer_size := send_buffer_size s;
     receive_buffer_size := receive_buffer_size s;
     no_delay := no_delay s; ack_delay := Some ms;
     connect_callback := connect_callback s |}.

Definition set_connect_callback (b : bool) (s : PseudoTcpAdapter) :=
  {| send_buffer_size := send_buffer_size s;
     receive_buffer_size := receive_buffer_size s;
     no_delay := no_delay s; ack_delay := ack_delay s;
     connect_callback := b |}.

(** [port_allocator_->f(...)], [channel_->f(...)], [socket_->f(...)]. *)
Definition on_port_allocator (f : PortAllocator -> PortAllocator) : M World unit :=
  t <- get ;;
  a <- deref (port_allocator_ t) ;;
  modify (set_port_allocator_ (Some (f a))).

Definition on_channel (f : P2PTransportChannel -> P2PTransportChannel) : M World unit :=
  t <- get ;;
  c <- deref (channel_ t) ;;
  modify (set_channel_ (Some (f c))).

Definition on_socket (f : PseudoTcpAdapter -> PseudoTcpAdapter) : M World unit :=
  t <- get ;;
  s <- deref (socket_ t) ;;
  modify (set_socket_ (Some (f s))).

(** [channel_adapter->SetOnDestroyedCallback(Bind(&OnChannelDestroyed, this))]
    on the freshly created channel socket adapter. *)
Definition SetOnDestroyedCallback : M World unit :=
  fun w => Ok (tt, {| this := this w; deleted := deleted w;
                      destroyed_callback := true; trace := trace w |}).

(** [socket_->Connect(Bind(&OnTcpConnected, this))].  What the adapter
    answers is its own business and is given as [connect_result]; it keeps
    the callback exactly when it answers [ERR_IO_PENDING]. *)
Definition socket_Connect (connect_result : Z) : M World Z :=
  t <- get ;;
  s <- deref (socket_ t) ;;
  call (SocketConnect s) ;;
  modify (set_socket_
            (Some (set_connect_callback (connect_result =? ERR_IO_PENDING) s))) ;;
  ret connect_result.

(** [authenticator_->SecureAndAuthenticate(socket_.PassAs<...>(),
    Bind(&OnAuthenticationDone, this))]: the authenticator takes the raw
    socket out of [socket_] and keeps the done-callback. *)
Definition authenticator_SecureAndAuthenticate : M World unit :=
  t <- get ;;
  _ <- deref (authenticator_ t) ;;
  let raw := socket_ t in
  modify (set_socket_ None) ;;
  call (SecureAndAuthenticate raw) ;;
  modify (set_authenticator_
            (Some {| raw_socket := raw; done_callback := true |})).

(** ** Member functions *)

(** The constructor. *)
Definition LibjingleStreamTransport_new (network_manager : NetworkManager)
    (socket_factory : PacketSocketFactory) : LibjingleStreamTransport :=
  {| network_manager_ := network_manager;
     socket_factory_ := socket_factory;
     name_ := EmptyString;
     config_ := TransportConfig_default;
     event_handler_ := None;
     callback_ := None;
     authenticator_ := None;
     port_allocator_ := None;
     http_port_allocator_ := false;
     channel_ := None;
     socket_ := None |}.

Definition name (t : LibjingleStreamTransport) : string := name_ t.

Definition is_connected (t : LibjingleStreamTransport) : bool :=
  is_null (callback_ t).

(** The destructor, then the end of the object's life. *)
Definition LibjingleStreamTransport_delete : M World unit :=
  t <- get ;;
  DCHECK (negb (is_null (event_handler_ t))) ;;
  h <- deref (event_handler_ t) ;;
  call (OnTransportDeleted h) ;;
  (* Channel should be already destroyed if we were connected. *)
  DCHECK (negb (is_connected t) || is_null (socket_ t)) ;;
  fun w => Ok (tt, {| this := this w; deleted := true;
                      destroyed_callback := destroyed_callback w;
                      trace := trace w |}).

Definition Initialize (name : string) (config : TransportConfig)
    (event_handler : option EventHandler)
    (authenticator : option ChannelAuthenticator) : M World unit :=
  DCHECK (negb (String.eqb name EmptyString)) ;;
  DCHECK (negb (is_null event_handler)) ;;
  (* Can be initialized only once. *)
  t <- get ;;
  DCHECK (String.eqb (name_ t) EmptyString) ;;
  modify (set_name_ name) ;;
  modify (set_config_ config) ;;
  modify (set_event_handler_ event_handler) ;;
  modify (set_authenticator_ authenticator).

Definition NotifyConnected (socket : option StreamSocket) : M World unit :=
  t <- get ;;
  DCHECK (negb (is_connected t)) ;;
  cb <- deref (callback_ t) ;;
  call (CallbackRun cb socket t) ;;
  modify (set_callback_ None).

Definition NotifyConnectFailed : M World unit :=
  modify (set_socket_ None) ;;
  modify (set_channel_ None) ;;
  modify (set_authenticator_ None) ;;
  NotifyConnected None.

Definition OnTcpConnected (result : Z) : M World unit :=
  if negb (result =? OK) then
    NotifyConnectFailed
  else
    authenticator_SecureAndAuthenticate.

Definition OnAuthenticationDone (error : Z) (socket : option StreamSocket)
  : M World unit :=
  if negb (error =? OK) then
    NotifyConnectFailed
  else
    NotifyConnected socket.

Definition OnChannelDestroyed : M World unit :=
  t <- get ;;
  if is_connected t then
    (* The connection socket is being deleted, so delete the transport too. *)
    LibjingleStreamTransport_delete
  else
    ret tt.

Definition Connect (callback : option ConnectedCallback) (connect_result : Z)
  : M World unit :=
  modify (set_callback_ callback) ;;
  (* Create port allocator first. *)
  let port_allocator_flags := PORTALLOCATOR_DISABLE_TCP in
  t <- get ;;
  port_allocator_flags <-
    (if nat_traversal (config_ t) then
       modify (set_http_port_allocator_ true) ;;
       modify (set_port_allocator_
                 (Some (HttpPortAllocator_new (network_manager_ t)
                                              (socket_factory_ t)))) ;;
       ret port_allocator_flags
     else
       let port_allocator_flags :=
         Z.lor port_allocator_flags
               (Z.lor PORTALLOCATOR_DISABLE_STUN PORTALLOCATOR_DISABLE_RELAY) in
       modify (set_port_allocator_
                 (Some (BasicPortAllocator_new (network_manager_ t)
                                               (socket_factory_ t)))) ;;
       ret port_allocator_flags) ;;
  on_port_allocator (set_flags port_allocator_flags) ;;
  on_port_allocator (SetPortRange (min_port (config_ t)) (max_port (config_ t))) ;;
  (* Create P2PTransportChannel, attach signal handlers and connect it. *)
  DCHECK (is_null (channel_ t)) ;;
  modify (set_channel_ (Some (P2PTransportChannel_new (name_ t)))) ;;
  on_channel SignalRequestSignaling_connect ;;
  on_channel SignalCandidateReady_connect ;;
  on_channel channel_Connect ;;
  call ChannelConnect ;;
  (* Create net::Socket adapter for the P2PTransportChannel. *)
  SetOnDestroyedCallback ;;
  (* Configure and connect PseudoTCP adapter. *)
  modify (set_socket_ (Some PseudoTcpAdapter_new)) ;;
  on_socket (SetSendBufferSize kTcpSendBufferSize) ;;
  on_socket (SetReceiveBufferSize kTcpReceiveBufferSize) ;;
  on_socket (SetNoDelay true) ;;
  on_socket (SetAckDelay kTcpAckDelayMilliseconds) ;;
  result <- socket_Connect connect_result ;;
  if negb (result =? ERR_IO_PENDING) then
    OnTcpConnected result
  else
    ret tt.

Definition AddRemoteCandidate (candidate : Candidate) : M World unit :=
  t <- get ;;
  _ <- deref (channel_ t) ;;
  call (ChannelOnCandidate candidate).

Definition OnRequestSignaling : M World unit :=
  t <- get ;;
  _ <- deref (channel_ t) ;;
  call ChannelOnSignalingReady.

(** The [channel] argument of the signal is not used and is left out. *)
Definition OnCandidateReady (candidate : Candidate) : M World unit :=
  t <- get ;;
  h <- deref (event_handler_ t) ;;
  call (OnTransportCandidate h candidate).

(** ** What can happen to the object

    The owner calls the three public member functions.  [EvConnect] carries,
    besides the callback, what [socket_->Connect] will answer.  The other
    events are raised by the collaborators, each only while it holds the
    bound member function in question: the channel its two signals, the
    PseudoTcp adapter the connect completion, the authenticator the
    done-callback, and the channel socket adapter, once, its destruction
    callback. *)
Inductive Event :=
| EvInitialize (name : string) (config : TransportConfig)
               (event_handler : option EventHandler)
               (authenticator : option ChannelAuthenticator)
| EvConnect (callback : option ConnectedCallback) (connect_result : Z)
| EvAddRemoteCandidate (candidate : Candidate)
| EvRequestSignaling
| EvCandidateReady (candidate : Candidate)
| EvTcpConnected (result : Z)
| EvAuthenticationDone (error : Z) (socket : option StreamSocket)
| EvChannelDestroyed.

(** The authenticator holds the unfired done-callback. *)
Definition handshaking (a : option ChannelAuthenticator) : bool :=
  match a with
  | Some a => done_callback a
  | None => false
  end.

(** The PseudoTcp adapter in [socket_] holds the unfired connect callback. *)
Definition connecting (s : option PseudoTcpAdapter) : bool :=
  match s with
  | Some s => connect_callback s
  | None => false
  end.

Definition alive : M World unit :=
  fun w => if deleted w then Err UseAfterDelete else Ok (tt, w).

Definition take_destroyed_callback : M World unit :=
  fun w => if destroyed_callback w
           then Ok (tt, {| this := this w; deleted := deleted w;
                           destroyed_callback := false; trace := trace w |})
           else Err NotEnabled.

Definition step (e : Event) : M World unit :=
  alive ;;
  t <- get ;;
  match e with
  | EvInitialize name config event_handler authenticator =>
      Initialize name config event_handler authenticator
  | EvConnect callback connect_result =>
      Connect callback connect_result
  | EvAddRemoteCandidate candidate =>
      AddRemoteCandidate candidate
  | EvRequestSignaling =>
      guard (match channel_ t with
             | Some c => SignalRequestSignaling c
             | None => false
             end) ;;
      OnRequestSignaling
  | EvCandidateReady candidate =>
      guard (match channel_ t with
             | Some c => SignalCandidateReady c
             | None => false
             end) ;;
      OnCandidateReady candidate
  | EvTcpConnected result =>
      guard (connecting (socket_ t)) ;;
      on_socket (set_connect_callback false) ;;
      OnTcpConnected result
  | EvAuthenticationDone error socket =>
      guard (handshaking (authenticator_ t)) ;;
      a <- deref (authenticator_ t) ;;
      modify (set_authenticator_
                (Some {| raw_socket := raw_socket a; done_callback := false |})) ;;
      OnAuthenticationDone error socket
  | EvChannelDestroyed =>
      take_destroyed_callback ;;
      OnChannelDestroyed
  end.

Fixpoint run (es : list Event) : M World unit :=
  match es with
  | [] => ret tt
  | e :: es' => step e ;; run es'
  end.

(** The world right after [new LibjingleStreamTransport(...)]. *)
Definition World_new (network_manager : NetworkManager)
    (socket_factory : PacketSocketFactory) : World :=
  {| this := LibjingleStreamTransport_new network_manager socket_factory;
     deleted := false; destroyed_callback := false; trace := [] |}.

(** ** Reading a history *)

(** What the owner's callback was run with, oldest first. *)
Fixpoint deliveries (tr : list Call) : list (option StreamSocket) :=
  match tr with
  | [] => []
  | CallbackRun _ socket _ :: tr' => socket :: deliveries tr'
  | _ :: tr' => deliveries tr'
  end.

(** The candidates handed to the channel, oldest first. *)
Fixpoint forwarded (tr : list Call) : list Candidate :=
  match tr with
  | [] => []
  | ChannelOnCandidate c :: tr' => c :: forwarded tr'
  | _ :: tr' => forwarded tr'
  end.

(** The PseudoTcp adapters [Connect] was called on, as configured then. *)
Fixpoint connected_sockets (tr : list Call) : list PseudoTcpAdapter :=
  match tr with
  | [] => []
  | SocketConnect s :: tr' => s :: connected_sockets tr'
  | _ :: tr' => connected_sockets tr'
  end.

(** The raw sockets handed to the authenticator. *)
Fixpoint authenticated_sockets (tr : list Call) : list (option PseudoTcpAdapter) :=
  match tr with
  | [] => []
  | SecureAndAuthenticate raw :: tr' => raw :: authenticated_sockets tr'
  | _ :: tr' => authenticated_sockets tr'
  end.

(** How many times the owner called [Connect]. *)
Fixpoint connects (es : list Event) : nat :=
  match es with
  | [] => 0%nat
  | EvConnect _ _ :: es' => S (connects es')
  | _ :: es' => connects es'
  end.

(** The candidates the owner added, oldest first. *)
Fixpoint added (es : list Event) : list Candidate :=
  match es with
  | [] => []
  | EvAddRemoteCandidate c :: es' => c :: added es'
  | _ :: es' => added es'
  end.

(** What one event decides about the connection attempt: nothing, or its
    outcome, a failure ([None]) or the authenticator's socket. *)
Definition outcome (e : Event) : list (option StreamSocket) :=
  match e with
  | EvConnect _ connect_result =>
      if connect_result =? ERR_IO_PENDING then []
      else if connect_result =? OK then [] else [None]
  | EvTcpConnected result =>
      if result =? OK then [] else [None]
  | EvAuthenticationDone error socket =>
      if error =? OK then [socket] else [None]
  | _ => []
  end.

Definition outcomes (es : list Event) : list (option StreamSocket) :=
  flat_map outcome es.

(** What the owner is held to in the histories considered below: the
    callback given to [Connect] is bound, and the authenticator given to
    [Initialize] is not in the middle of a handshake. *)
Definition owner_contract (e : Event) : bool :=
  match e with
  | EvConnect callback _ => negb (is_null callback)
  | EvInitialize _ _ _ authenticator => negb (handshaking authenticator)
  | _ => true
  end.

(** An event that reports a failed stage: the PseudoTcp connect, at once or
    later, or the authentication. *)
Definition failure_event (e : Event) : bool :=
  match e with
  | EvConnect _ connect_result =>
      negb (connect_result =? ERR_IO_PENDING) && negb (connect_result =? OK)
  | EvTcpConnected result => negb (result =? OK)
  | EvAuthenticationDone error _ => negb (error =? OK)
  | _ => false
  end.

(** 1 while a stored callback waits for its run, 0 otherwise. *)
Definition armed (w : World) : nat :=
  if is_connected (this w) then 0%nat else 1%nat.

(** A flag is set in an allocator's flag word. *)
Definition has_flag (f : Z) (a : PortAllocator) : Prop :=
  exists word, flags a = Some word /\ Z.land word f = f.

(** What holds of the object between events, in every history that starts
    at the constructor and keeps the owner contract: a stored callback
    means the channel exists; the PseudoTcp adapter is owned only while a
    callback is stored; while the authenticator runs, the adapter is gone
    and a callback is stored; a deleted object has no callback and no
    destruction callback left to fire; the allocator outlives the channel. *)
Definition consistent (w : World) : Prop :=
  (is_null (callback_ (this w)) = false ->
   is_null (channel_ (this w)) = false) /\
  (is_null (socket_ (this w)) = false ->
   is_null (callback_ (this w)) = false) /\
  (handshaking (authenticator_ (this w)) = true ->
   is_null (socket_ (this w)) = true /\
   is_null (callback_ (this w)) = false) /\
  (deleted w = true ->
   is_null (callback_ (this w)) = true /\ destroyed_callback w = false) /\
  (is_null (channel_ (this w)) = false ->
   is_null (port_allocator_ (this w)) = false).

(** ** [Connect] up to the adapter's answer

    The objects [Connect] has built and the state it has reached when
    [socket_->Connect] returns, written out.  [Connect_unfold] below shows
    that this is what the member function computes. *)

Definition Connect_port_allocator (t : LibjingleStreamTransport) : PortAllocator :=
  if nat_traversal (config_ t) then
    SetPortRange (min_port (config_ t)) (max_port (config_ t))
      (set_flags PORTALLOCATOR_DISABLE_TCP
         (HttpPortAllocator_new (network_manager_ t) (socket_factory_ t)))
  else
    SetPortRange (min_port (config_ t)) (max_port (config_ t))
      (set_flags
         (Z.lor PORTALLOCATOR_DISABLE_TCP
            (Z.lor PORTALLOCATOR_DISABLE_STUN PORTALLOCATOR_DISABLE_RELAY))
         (BasicPortAllocator_new (network_manager_ t) (socket_factory_ t))).

Definition Connect_channel (t : LibjingleStreamTransport) : P2PTransportChannel :=
  channel_Connect
    (SignalCandidateReady_connect
       (SignalRequestSignaling_connect (P2PTransportChannel_new (name_ t)))).

Definition Connect_socket : PseudoTcpAdapter :=
  SetAckDelay kTcpAckDelayMilliseconds
    (SetNoDelay true
       (SetReceiveBufferSize kTcpReceiveBufferSize
          (SetSendBufferSize kTcpSendBufferSize PseudoTcpAdapter_new))).

Definition Connect_started (callback : option ConnectedCallback)
    (connect_result : Z) (w : World) : World :=
  {| this :=
       {| network_manager_ := network_manager_ (this w);
          socket_factory_ := socket_factory_ (this w);
          name_ := name_ (this w);
          config_ := config_ (this w);
          event_handler_ := event_handler_ (this w);
          callback_ := callback;
          authenticator_ := authenticator_ (this w);
          port_allocator_ := Some (Connect_port_allocator (this w));
          http_port_allocator_ :=
            if nat_traversal (config_ (this w)) then true
            else http_port_allocator_ (this w);
          channel_ := Some (Connect_channel (this w));
          socket_ :=
            Some (set_connect_callback (connect_result =? ERR_IO_PENDING)
                    Connect_socket) |};
     deleted := deleted w;
     destroyed_callback := true;
     trace := (trace w ++ [ChannelConnect]) ++ [SocketConnect Connect_socket] |}.

(** ** More readings of a history *)

(** The local candidates handed to the event handler, oldest first. *)
Fixpoint surfaced (tr : list Call) : list Candidate :=
  match tr with
  | [] => []
  | OnTransportCandidate _ c :: tr' => c :: surfaced tr'
  | _ :: tr' => surfaced tr'
  end.

(** The event handlers that were called, oldest first. *)
Fixpoint notified (tr : list Call) : list EventHandler :=
  match tr with
  | [] => []
  | OnTransportCandidate h _ :: tr' => h :: notified tr'
  | OnTransportDeleted h :: tr' => h :: notified tr'
  | _ :: tr' => notified tr'
  end.

(** How often the handler was told of the deletion. *)
Fixpoint deletions (tr : list Call) : nat :=
  match tr with
  | [] => 0%nat
  | OnTransportDeleted _ :: tr' => S (deletions tr')
  | _ :: tr' => deletions tr'
  end.

(** How often [channel_->OnSignalingReady()] was called. *)
Fixpoint signaling_answers (tr : list Call) : nat :=
  match tr with
  | [] => 0%nat
  | ChannelOnSignalingReady :: tr' => S (signaling_answers tr')
  | _ :: tr' => signaling_answers tr'
  end.

(** How often [channel_->Connect()] was called. *)
Fixpoint channel_connects (tr : list Call) : nat :=
  match tr with
  | [] => 0%nat
  | ChannelConnect :: tr' => S (channel_connects tr')
  | _ :: tr' => channel_connects tr'
  end.

(** The candidates the channel signalled as ready, oldest first. *)
Fixpoint ready (es : list Event) : list Candidate :=
  match es with
  | [] => []
  | EvCandidateReady c :: es' => c :: ready es'
  | _ :: es' => ready es'
  end.

(** How often the channel requested signaling. *)
Fixpoint signalings (es : list Event) : nat :=
  match es with
  | [] => 0%nat
  | EvRequestSignaling :: es' => S (signalings es')
  | _ :: es' => signalings es'
  end.

(** 1 while the transport owns a PseudoTcp adapter, 0 otherwise. *)
Definition owned_sockets (w : World) : nat :=
  if is_null (socket_ (this w)) then 0%nat else 1%nat.

(** The adapter in [socket_], if any, is the one [Connect] set up, up to
    whether it still holds the connect callback. *)
Definition configured (s : option PseudoTcpAdapter) : Prop :=
  match s with
  | Some s => set_connect_callback false s = Connect_socket
  | None => True
  end.

(** What holds of the object between events in every history that starts
    at the constructor, whatever the owner does: the adapter is owned only
    while the channel exists and is the one [Connect] set up; without a
    name there is no event handler; every handler called so far is the one
    stored. *)
Definition shaped (w : World) : Prop :=
  (is_null (socket_ (this w)) = false ->
   is_null (channel_ (this w)) = false) /\
  configured (socket_ (this w)) /\
  (name_ (this w) = EmptyString -> event_handler_ (this w) = None) /\
  Forall (fun h => event_handler_ (this w) = Some h) (notified (trace w)).



(** ** The owner's callback, spelled out

    [callback_.Run(socket.Pass())] hands the socket to the owner's code, and
    that code runs before [callback_.Reset()].  An owner that lets go of the
    socket before its callback returns destroys it then and there, and with
    it the channel socket adapter, whose destruction callback runs
    [OnChannelDestroyed] while [callback_] is still set. *)
Inductive Owner := Keeps | Drops.

(** The channel socket adapter is destroyed: its destruction callback, if
    it still holds one, runs. *)
Definition ChannelAdapterDestroyed : M World unit :=
  fun w => if destroyed_callback w
           then (take_destroyed_callback ;; OnChannelDestroyed) w
           else Ok (tt, w).

(** [NotifyConnected], with what the owner does inside [callback_.Run]. *)
Definition NotifyConnected_owner (owner : Owner)
    (socket : option StreamSocket) : M World unit :=
  t <- get ;;
  DCHECK (negb (is_connected t)) ;;
  cb <- deref (callback_ t) ;;
  call (CallbackRun cb socket t) ;;
  match owner, socket with
  | Drops, Some _ => ChannelAdapterDestroyed
  | _, _ => ret tt
  end ;;
  modify (set_callback_ None).

Definition OnAuthenticationDone_owner (owner : Owner) (error : Z)
    (socket : option StreamSocket) : M World unit :=
  if negb (error =? OK) then
    NotifyConnectFailed
  else
    NotifyConnected_owner owner socket.

(** The authenticator fires its done-callback, as in [step]. *)
Definition AuthenticationDone_owner (owner : Owner) (error : Z)
    (socket : option StreamSocket) : M World unit :=
  alive ;;
  t <- get ;;
  guard (handshaking (authenticator_ t)) ;;
  a <- deref (authenticator_ t) ;;
  modify (set_authenticator_
            (Some {| raw_socket := raw_socket a; done_callback := false |})) ;;
  OnAuthenticationDone_owner owner error socket.

(** A transport whose callback has run, whose channel is still there, and
    whose channel adapter has no destruction callback left to fire. *)
Definition spent (w : World) : Prop :=
  deleted w = false /\
  destroyed_callback w = false /\
  is_null (channel_ (this w)) = false /\
  is_null (socket_ (this w)) = true /\
  is_null (callback_ (this w)) = true /\
  deletions (trace w) = 0%nat.

End StreamTransport.

(** ** The factory *)

Module Factory.
Section Factory.
Context {E : Externals}.

(** The factory owns the network manager and the packet socket factory it
    creates in its constructor. *)
Record LibjingleTransportFactory := {
  network_manager_ : NetworkManager;
  socket_factory_ : PacketSocketFactory
}.

(** The objects [new] has handed out, by address, and what was logged. *)
Record World := {
  this : LibjingleTransportFactory;
  heap : list LibjingleStreamTransport;
  not_implemented_logged : nat
}.

Definition get : M World LibjingleTransportFactory :=
  fun w => Ok (this w, w).

(** [new T(...)]: the next free address holds the constructed object. *)
Definition new (t : LibjingleStreamTransport) : M World nat :=
  fun w => Ok (List.length (heap w),
               {| this := this w; heap := heap w ++ [t];
                  not_implemented_logged := not_implemented_logged w |}).

Definition NOTIMPLEMENTED : M World unit :=
  fun w => Ok (tt, {| this := this w; heap := heap w;
                      not_implemented_logged := S (not_implemented_logged w) |}).

(** The constructor, given the two objects it allocates. *)
Definition LibjingleTransportFactory_new (network_manager : NetworkManager)
    (socket_factory : PacketSocketFactory) : LibjingleTransportFactory :=
  {| network_manager_ := network_manager; socket_factory_ := socket_factory |}.

(** Both return a [scoped_ptr]: an address, or NULL. *)
Definition CreateStreamTransport : M World (option nat) :=
  f <- get ;;
  p <- new (LibjingleStreamTransport_new (network_manager_ f) (socket_factory_ f)) ;;
  ret (Some p).

Definition CreateDatagramTransport : M World (option nat) :=
  NOTIMPLEMENTED ;;
  ret None.

(** A sequence of calls on the factory, and what each returned. *)
Inductive Create := Stream | Datagram.

Fixpoint create_all (cs : list Create) : M World (list (option nat)) :=
  match cs with
  | [] => ret []
  | Stream :: cs' =>
      p <- CreateStreamTransport ;;
      ps <- create_all cs' ;;
      ret (p :: ps)
  | Datagram :: cs' =>
      p <- CreateDatagramTransport ;;
      ps <- create_all cs' ;;
      ret (p :: ps)
  end.

(** How many transports of each kind a sequence asks for. *)
Fixpoint streams (cs : list Create) : nat :=
  match cs with
  | [] => 0%nat
  | Stream :: cs' => S (streams cs')
  | Datagram :: cs' => streams cs'
  end.

Fixpoint datagrams (cs : list Create) : nat :=
  match cs with
  | [] => 0%nat
  | Stream :: cs' => datagrams cs'
  | Datagram :: cs' => S (datagrams cs')
  end.

(** The non-NULL pointers among the results. *)
Fixpoint addresses (ps : list (option nat)) : list nat :=
  match ps with
  | [] => []
  | Some p :: ps' => p :: addresses ps'
  | None :: ps' => addresses ps'
  end.

End Factory.
End Factory.

(** ** One instance of the external declarations

    Handles, candidates, sockets and callbacks are numbered; the result
    codes are 0 and -1 and the three flags are the bits 8, 2 and 4.  The
    instance serves to run the definitions on concrete histories. *)
Definition sample : Externals :=
  {| NetworkManager := nat; PacketSocketFactory := nat; EventHandler := nat;
     Candidate := nat; StreamSocket := nat; ConnectedCallback := nat;
     OK := 0; ERR_IO_PENDING := -1;
     PORTALLOCATOR_DISABLE_TCP := 8;
     PORTALLOCATOR_DISABLE_STUN := 2;
     PORTALLOCATOR_DISABLE_RELAY := 4;
     TransportConfig_default :=
       {| nat_traversal := false; min_port := 0; max_port := 0 |} |}.

Definition sample_config (nat : bool) : TransportConfig :=
  {| nat_traversal := nat; min_port := 12000; max_port := 12999 |}.

Definition sample_authenticator : ChannelAuthenticator :=
  {| raw_socket := None; done_callback := false |}.

(** The owner's [Initialize("video", config, handler 7, authenticator)]. *)
Definition sample_Initialize (nat : bool) : @Event sample :=
  @EvInitialize sample "video" (sample_config nat) (Some 7%nat)
                (Some sample_authenticator).

(** The owner's [Connect(callback 1)], the adapter answering [r]. *)
Definition sample_Connect (r : Z) : @Event sample :=
  @EvConnect sample (Some 1%nat) r.

Definition sample_World : @World sample := @World_new sample 100%nat 200%nat.

(** The world a history leaves behind, started on [sample_World]. *)
Definition sample_after (es : list (@Event sample)) : @World sample :=
  match @run sample es sample_World with
  | Ok (_, w) => w
  | Err _ => sample_World
  end.

(** Initialize, then Connect with the adapter answering [ERR_IO_PENDING]. *)
Definition history_connecting : list (@Event sample) :=
  [sample_Initialize false; sample_Connect (-1)].

(** ... then the PseudoTcp connect completes with [OK]. *)
Definition history_authenticating : list (@Event sample) :=
  history_connecting ++ [@EvTcpConnected sample 0].

(** ... then the authenticator succeeds and hands over socket 9. *)
Definition history_connected : list (@Event sample) :=
  history_authenticating ++ [@EvAuthenticationDone sample 0 (Some 9%nat)].

(** Initialize, then Connect with the adapter failing at once. *)
Definition history_failed : list (@Event sample) :=
  [sample_Initialize false; sample_Connect (-2)].

(** ... while connecting, the channel asks for signaling and reports two
    local candidates. *)
Definition history_signalled : list (@Event sample) :=
  history_connecting
  ++ [@EvRequestSignaling sample; @EvCandidateReady sample 41%nat;
      @EvCandidateReady sample 42%nat].

(** ... after the delivery the owner drops the socket. *)
Definition history_deleted : list (@Event sample) :=
  history_connected ++ [@EvChannelDestroyed sample].

(** * Proofs *)

Section Histories.
Context {E : Externals}.

(** ** Reading the trace of two histories run one after the other *)

Lemma deliveries_app (a b : list Call) :
  deliveries (a ++ b) = deliveries a ++ deliveries b.
Proof.
  induction a as [|c a IH]; [reflexivity|].
  destruct c; simpl; rewrite IH; reflexivity.
Qed.

Lemma forwarded_app (a b : list Call) :
  forwarded (a ++ b) = forwarded a ++ forwarded b.
Proof.
  induction a as [|c a IH]; [reflexivity|].
  destruct c; simpl; rewrite IH; reflexivity.
Qed.

Lemma connected_sockets_app (a b : list Call) :
  connected_sockets (a ++ b) = connected_sockets a ++ connected_sockets b.
Proof.
  induction a as [|c a IH]; [reflexivity|].
  destruct c; simpl; rewrite IH; reflexivity.
Qed.

Lemma authenticated_sockets_app (a b : list Call) :
  authenticated_sockets (a ++ b)
  = authenticated_sockets a ++ authenticated_sockets b.
Proof.
  induction a as [|c a IH]; [reflexivity|].
  destruct c; simpl; rewrite IH; reflexivity.
Qed.

(** ** Symbolic execution of member functions *)

Ltac unfold_members :=
  unfold step, Connect, Initialize, AddRemoteCandidate, OnRequestSignaling,
    OnCandidateReady, OnTcpConnected, OnAuthenticationDone, OnChannelDestroyed,
    NotifyConnectFailed, NotifyConnected, LibjingleStreamTransport_delete,
    authenticator_SecureAndAuthenticate, socket_Connect, SetOnDestroyedCallback,
    take_destroyed_callback, alive, on_socket, on_channel, on_port_allocator,
    is_connected, get, modify, call, DCHECK, deref, guard, bind, ret, fault
    in *.

Ltac scrutinee t :=
  lazymatch t with
  | context [match ?x with _ => _ end] => scrutinee x
  | _ => t
  end.

(** Split on whatever the computation in [H] is stuck on, innermost first. *)
Ltac break_in H :=
  repeat (cbn in H;
          lazymatch type of H with
          | context [match ?x with _ => _ end] =>
              let y := scrutinee x in destruct y eqn:?
          end);
  cbn in H; try discriminate H.

Ltac bool_facts :=
  repeat match goal with
         | H : negb _ = true |- _ => apply negb_true_iff in H
         | H : negb _ = false |- _ => apply negb_false_iff in H
         | H : _ && _ = true |- _ => apply andb_true_iff in H; destruct H
         end;
  repeat match goal with
         | H : ?x = _ |- context [?x] => rewrite H
         end.

Ltac traces :=
  rewrite ?deliveries_app, ?forwarded_app, ?connected_sockets_app,
    ?authenticated_sockets_app; cbn;
  rewrite ?app_nil_r, ?length_app; cbn.

Ltac split_state :=
  match goal with
  | |- context [is_null ?x] => is_var x; destruct x
  | H : context [is_null ?x] |- _ => is_var x; destruct x
  | |- context [handshaking ?x] => is_var x; destruct x as [[? []]|]
  | H : context [handshaking ?x] |- _ => is_var x; destruct x as [[? []]|]
  end.

Ltac use_hyps :=
  repeat match goal with
         | H : ?a = ?a -> _ |- _ => specialize (H eq_refl)
         | H : _ /\ _ |- _ => destruct H
         end.

Ltac leaf :=
  cbn in *; rewrite ?app_nil_r; use_hyps;
  first [ discriminate | congruence | lia | tauto ].

Ltac finish := first [ solve [leaf] | once split_state; finish ].

(** ** [Connect], unfolded *)

Lemma Connect_unfold (callback : option ConnectedCallback)
    (connect_result : Z) (w : World) :
  Connect callback connect_result w
  = if is_null (channel_ (this w)) then
      if negb (connect_result =? ERR_IO_PENDING) then
        OnTcpConnected connect_result
          (Connect_started callback connect_result w)
      else
        Ok (tt, Connect_started callback connect_result w)
    else Err DCheckFailed.
Proof.
  destruct w as [[nm sf n [nat lo hi] eh cb au pa hpa ch so] d g tr].
  destruct ch, nat, (connect_result =? ERR_IO_PENDING) eqn:P;
    vm_compute in P; vm_compute; rewrite ?P; reflexivity.
Qed.

Lemma step_Connect (callback : option ConnectedCallback)
    (connect_result : Z) (w : World) :
  step (EvConnect callback connect_result) w
  = if deleted w then Err UseAfterDelete
    else Connect callback connect_result w.
Proof.
  destruct w as [t [] g tr]; reflexivity.
Qed.

(** ** One event *)

Lemma step_spec (e : Event) (w w' : World) :
  consistent w -> owner_contract e = true ->
  step e w = Ok (tt, w') ->
  consistent w' /\
  deliveries (trace w') = deliveries (trace w) ++ outcome e /\
  (length (deliveries (trace w')) + armed w' =
   length (deliveries (trace w)) + armed w + connects [e])%nat /\
  forwarded (trace w') = forwarded (trace w) ++ added [e] /\
  (destroyed_callback w' = true ->
   destroyed_callback w = true \/ connects [e] = 1%nat).
Proof.
  intros (C1 & C2 & C3 & C4 & C5) B H.
  destruct e;
    [ | rewrite step_Connect, Connect_unfold in H;
        unfold Connect_started in H | .. ].
  all: destruct w as [[nm sf n c eh cb au pa hpa ch so] d g tr].
  all: unfold consistent, armed in *; cbn in C1, C2, C3, C4, C5.
  all: unfold_members; break_in H.
  all: injection H as <-; cbn; traces; bool_facts; cbn in *.
  all: repeat split; intros; finish.
Qed.

Lemma consistent_new (nm : NetworkManager) (sf : PacketSocketFactory) :
  consistent (World_new nm sf).
Proof. repeat split; cbn; intros; discriminate. Qed.

(** ** A whole history *)

Lemma run_cons (e : Event) (es : list Event) (w : World) :
  run (e :: es) w
  = match step e w with
    | Ok (_, w1) => run es w1
    | Err f => Err f
    end.
Proof. reflexivity. Qed.

Lemma connects_cons (e : Event) (es : list Event) :
  connects (e :: es) = (connects [e] + connects es)%nat.
Proof. destruct e; reflexivity. Qed.

Lemma added_cons (e : Event) (es : list Event) :
  added (e :: es) = added [e] ++ added es.
Proof. destruct e; reflexivity. Qed.

Lemma connects_one (e : Event) : (connects [e] <= 1)%nat.
Proof. destruct e; cbn; lia. Qed.

Lemma run_spec (es : list Event) :
  forall w w',
    consistent w -> forallb owner_contract es = true ->
    run es w = Ok (tt, w') ->
    consistent w' /\
    deliveries (trace w') = deliveries (trace w) ++ outcomes es /\
    (length (deliveries (trace w')) + armed w' =
     length (deliveries (trace w)) + armed w + connects es)%nat /\
    forwarded (trace w') = forwarded (trace w) ++ added es /\
    (destroyed_callback w' = true ->
     destroyed_callback w = true \/ (1 <= connects es)%nat).
Proof.
  induction es as [|e es IH]; intros w w' C B H.
  - injection H as <-. unfold outcomes. cbn [flat_map connects added].
    rewrite !app_nil_r.
    repeat split; try apply C; auto with arith.
  - cbn [forallb] in B. apply andb_true_iff in B as [Be Bes].
    rewrite run_cons in H.
    destruct (step e w) as [[[] w1]|] eqn:S1; [|discriminate].
    destruct (step_spec e w w1 C Be S1) as (C1 & D1 & L1 & F1 & G1).
    destruct (IH w1 w' C1 Bes H) as (C' & D' & L' & F' & G').
    rewrite connects_cons, added_cons.
    unfold outcomes in *. cbn [flat_map].
    split; [exact C'|].
    split; [rewrite D', D1, <- app_assoc; reflexivity|].
    split; [rewrite L', L1; lia|].
    split; [rewrite F', F1, <- app_assoc; reflexivity|].
    intros G. destruct (G' G) as [G2|G2]; [|right; lia].
    destruct (G1 G2) as [G3|G3]; [left; exact G3|right; lia].
Qed.

(** Every history from the constructor. *)
Lemma history_spec nm sf es w :
  forallb owner_contract es = true ->
  run es (World_new nm sf) = Ok (tt, w) ->
  consistent w /\
  deliveries (trace w) = outcomes es /\
  (length (deliveries (trace w)) + armed w = connects es)%nat /\
  forwarded (trace w) = added es /\
  (destroyed_callback w = true -> (1 <= connects es)%nat).
Proof.
  intros B H.
  destruct (run_spec es _ _ (consistent_new nm sf) B H) as (C & D & L & F & G).
  cbn [World_new trace deliveries forwarded app length armed this
       LibjingleStreamTransport_new is_connected callback_ is_null
       destroyed_callback Nat.add] in D, L, F, G.
  repeat split; try apply C; auto.
  intros G'. destruct (G G'); [discriminate|assumption].
Qed.


(** ** The completion events, one at a time *)

(** A stage that reports failure runs the owner's callback once, with no
    socket, after the adapter, the channel and the authenticator are gone;
    the allocator is still there. *)
Lemma failure_spec (e : Event) (w w' : World) :
  consistent w -> failure_event e = true ->
  step e w = Ok (tt, w') ->
  exists pre cb seen,
    trace w' = trace w ++ pre ++ [CallbackRun cb None seen] /\
    deliveries pre = [] /\
    socket_ seen = None /\ channel_ seen = None /\
    authenticator_ seen = None /\
    is_null (port_allocator_ seen) = false /\
    port_allocator_ (this w') = port_allocator_ seen /\
    callback_ (this w') = None.
Proof.
  intros (C1 & C2 & C3 & C4 & C5) F H.
  destruct e; try discriminate F;
    [ rewrite step_Connect, Connect_unfold in H;
      unfold Connect_started in H | .. ].
  all: destruct w as [[nm sf n c eh cb au pa hpa ch so] d g tr].
  all: cbn in C1, C2, C3, C4, C5, F.
  all: unfold_members; break_in H.
  all: injection H as <-; cbn; bool_facts; cbn in *; try discriminate.
  - eexists [ChannelConnect; SocketConnect _], _, _.
    rewrite <- !app_assoc. cbn. repeat split.
  - eexists [ChannelConnect; SocketConnect _], _, _.
    rewrite <- !app_assoc. cbn. repeat split.
  - eexists [], _, _. cbn. repeat split.
    destruct ch, pa; cbn in *; auto;
      try (specialize (C1 eq_refl)); try (specialize (C5 eq_refl));
      discriminate.
  - eexists [], _, _. cbn. repeat split.
    unfold handshaking in *.
    destruct ch, pa; cbn in *; auto;
      destruct (C3 eq_refl) as [_ C3'];
      try (specialize (C1 eq_refl)); try (specialize (C5 eq_refl));
      discriminate.
Qed.

(** A connect that fails inside [Connect] is delivered before it returns. *)
Lemma connect_failure_delivered (cb : ConnectedCallback)
    (connect_result : Z) (w : World) :
  deleted w = false -> is_null (channel_ (this w)) = true ->
  (connect_result =? ERR_IO_PENDING) = false ->
  (connect_result =? OK) = false ->
  exists w',
    step (EvConnect (Some cb) connect_result) w = Ok (tt, w') /\
    deliveries (trace w') = deliveries (trace w) ++ [None] /\
    callback_ (this w') = None.
Proof.
  intros D C P R.
  rewrite step_Connect, D, Connect_unfold, C, P.
  destruct w as [[nm sf n c eh cb0 au pa hpa ch so] d g tr].
  unfold_members. cbn. rewrite R. cbn.
  eexists; split; [reflexivity|]. cbn.
  rewrite !deliveries_app. cbn. rewrite !app_nil_r. auto.
Qed.

(** While the adapter holds the connect callback, its failure is delivered. *)
Lemma tcp_failure_delivered (result : Z) (w : World) :
  consistent w -> connecting (socket_ (this w)) = true ->
  (result =? OK) = false ->
  exists w',
    step (EvTcpConnected result) w = Ok (tt, w') /\
    deliveries (trace w') = deliveries (trace w) ++ [None] /\
    callback_ (this w') = None.
Proof.
  intros (C1 & C2 & C3 & C4 & C5) S R.
  destruct w as [[nm sf n c eh cb au pa hpa ch so] d g tr].
  cbn in C1, C2, C3, C4, C5, S.
  destruct so as [s|]; [|discriminate S]. cbn in S.
  specialize (C2 eq_refl). destruct cb as [cb|]; [|discriminate C2].
  destruct d; [destruct (C4 eq_refl); discriminate|].
  unfold_members. cbn. rewrite S, R. cbn.
  eexists; split; [reflexivity|]. cbn. rewrite deliveries_app. auto.
Qed.

(** While the authenticator holds the done-callback, its verdict is
    delivered: no socket on an error, the socket it produced otherwise. *)
Lemma authentication_delivered (error : Z) (socket : option StreamSocket)
    (w : World) :
  consistent w -> handshaking (authenticator_ (this w)) = true ->
  exists w',
    step (EvAuthenticationDone error socket) w = Ok (tt, w') /\
    deliveries (trace w')
    = deliveries (trace w) ++ [if error =? OK then socket else None] /\
    callback_ (this w') = None.
Proof.
  intros (C1 & C2 & C3 & C4 & C5) A.
  destruct w as [[nm sf n c eh cb au pa hpa ch so] d g tr].
  cbn in C1, C2, C3, C4, C5, A.
  destruct (C3 A) as [_ C3'].
  destruct cb as [cb|]; [|discriminate C3'].
  destruct d; [destruct (C4 eq_refl); discriminate|].
  destruct au as [[raw []]|]; try discriminate A.
  unfold_members. cbn.
  destruct (error =? OK); cbn;
    (eexists; split; [reflexivity|]); cbn; rewrite deliveries_app; auto.
Qed.

(** The channel adapter's destruction callback, before and after the
    owner's callback has run. *)
Lemma channel_destroyed_spec (w : World) :
  consistent w -> destroyed_callback w = true ->
  (is_connected (this w) = false ->
   exists w',
     step EvChannelDestroyed w = Ok (tt, w') /\
     deleted w' = false /\ this w' = this w /\ trace w' = trace w) /\
  (is_connected (this w) = true ->
   forall h, event_handler_ (this w) = Some h ->
   exists w',
     step EvChannelDestroyed w = Ok (tt, w') /\
     deleted w' = true /\ trace w' = trace w ++ [OnTransportDeleted h]).
Proof.
  intros (C1 & C2 & C3 & C4 & C5) G.
  destruct w as [[nm sf n c eh cb au pa hpa ch so] d g tr].
  cbn in C1, C2, C3, C4, C5, G. subst g.
  destruct d; [destruct (C4 eq_refl); discriminate|].
  split.
  - intros N. unfold is_connected in N. cbn in N.
    destruct cb; [|discriminate N].
    unfold_members. cbn. eexists; repeat split.
  - intros N h Hh. unfold is_connected in N. cbn in N, Hh. subst eh.
    destruct cb; [discriminate N|].
    destruct so; [specialize (C2 eq_refl); discriminate|].
    unfold_members. cbn. eexists; repeat split.
Qed.

(** Between [Connect] and the run of the callback the channel exists, and
    candidates go to it one by one. *)
Lemma add_candidates_spec (cs : list Candidate) :
  forall w,
    deleted w = false -> is_null (channel_ (this w)) = false ->
    run (map EvAddRemoteCandidate cs) w
    = Ok (tt, {| this := this w; deleted := deleted w;
                 destroyed_callback := destroyed_callback w;
                 trace := trace w ++ map ChannelOnCandidate cs |}).
Proof.
  induction cs as [|c cs IH]; intros w D C.
  - cbn. rewrite app_nil_r. destruct w; reflexivity.
  - cbn [map]. rewrite run_cons.
    assert (S1 : step (EvAddRemoteCandidate c) w
                 = Ok (tt, {| this := this w; deleted := deleted w;
                              destroyed_callback := destroyed_callback w;
                              trace := trace w ++ [ChannelOnCandidate c] |})).
    { destruct w as [t d g tr]. cbn in D, C. subst d.
      destruct t. cbn in C. destruct channel_0; [|discriminate C].
      reflexivity. }
    rewrite S1, IH by (cbn; assumption).
    cbn. rewrite <- app_assoc. reflexivity.
Qed.


(** ** The allocator flags *)

Lemma land_lor_l (a b : Z) : Z.land (Z.lor a b) a = a.
Proof.
  apply Z.bits_inj'. intros n _.
  rewrite Z.land_spec, Z.lor_spec.
  destruct (Z.testbit a n), (Z.testbit b n); reflexivity.
Qed.

Lemma land_lor_r (a b : Z) : Z.land (Z.lor a b) b = b.
Proof. rewrite Z.lor_comm. apply land_lor_l. Qed.

Lemma land_lor_rl (a b c : Z) : Z.land (Z.lor a (Z.lor b c)) b = b.
Proof.
  apply Z.bits_inj'. intros n _.
  rewrite Z.land_spec, !Z.lor_spec.
  destruct (Z.testbit a n), (Z.testbit b n), (Z.testbit c n); reflexivity.
Qed.

Lemma land_lor_rr (a b c : Z) : Z.land (Z.lor a (Z.lor b c)) c = c.
Proof.
  apply Z.bits_inj'. intros n _.
  rewrite Z.land_spec, !Z.lor_spec.
  destruct (Z.testbit a n), (Z.testbit b n), (Z.testbit c n); reflexivity.
Qed.

(** ** What [OnTcpConnected] leaves alone *)

Lemma OnTcpConnected_spec (result : Z) (w w' : World) :
  OnTcpConnected result w = Ok (tt, w') ->
  port_allocator_ (this w') = port_allocator_ (this w) /\
  http_port_allocator_ (this w') = http_port_allocator_ (this w) /\
  connected_sockets (trace w') = connected_sockets (trace w) /\
  socket_ (this w') = None /\
  if result =? OK then
    authenticated_sockets (trace w')
    = authenticated_sockets (trace w) ++ [socket_ (this w)] /\
    deliveries (trace w') = deliveries (trace w) /\
    handshaking (authenticator_ (this w')) = true /\
    callback_ (this w') = callback_ (this w)
  else
    authenticated_sockets (trace w') = authenticated_sockets (trace w) /\
    deliveries (trace w') = deliveries (trace w) ++ [None] /\
    authenticator_ (this w') = None /\
    callback_ (this w') = None.
Proof.
  intros H.
  destruct w as [[nm sf n c eh cb au pa hpa ch so] d g tr].
  unfold_members. break_in H.
  all: injection H as <-; cbn; traces; bool_facts; cbn.
  all: repeat split.
Qed.

(** * The claims *)

(** C1.  In every history of a transport, from its construction on, in
    which the owner keeps its contract and nothing faults: the owner's
    callback has been run with exactly the outcomes the stages reported, in
    order (no socket for a failed PseudoTcp connect or a failed
    authentication, the authenticator's socket for a successful one); every
    call of Connect has been answered by exactly one run of the callback,
    except that the latest may still be waiting; when the adapter fails
    inside Connect, or the adapter or the authenticator reports while the
    callback waits, the report is delivered and the stored callback is
    reset; and once the callback has run, no later event runs it again
    unless Connect is called anew. *)
Theorem completion_delivered_exactly_once
    (nm : NetworkManager) (sf : PacketSocketFactory)
    (es : list Event) (w : World) :
  forallb owner_contract es = true ->
  run es (World_new nm sf) = Ok (tt, w) ->
  deliveries (trace w) = outcomes es /\
  (length (deliveries (trace w)) + armed w)%nat = connects es /\
  (forall cb connect_result,
      deleted w = false -> is_null (channel_ (this w)) = true ->
      (connect_result =? ERR_IO_PENDING) = false ->
      (connect_result =? OK) = false ->
      exists w',
        step (EvConnect (Some cb) connect_result) w = Ok (tt, w') /\
        deliveries (trace w') = deliveries (trace w) ++ [None] /\
        callback_ (this w') = None) /\
  (forall result,
      connecting (socket_ (this w)) = true -> (result =? OK) = false ->
      exists w',
        step (EvTcpConnected result) w = Ok (tt, w') /\
        deliveries (trace w') = deliveries (trace w) ++ [None] /\
        callback_ (this w') = None) /\
  (forall error socket,
      handshaking (authenticator_ (this w)) = true ->
      exists w',
        step (EvAuthenticationDone error socket) w = Ok (tt, w') /\
        deliveries (trace w')
        = deliveries (trace w) ++ [if error =? OK then socket else None] /\
        callback_ (this w') = None) /\
  (forall es' w'',
      forallb owner_contract es' = true -> connects es' = 0%nat ->
      is_connected (this w) = true ->
      run es' w = Ok (tt, w'') ->
      deliveries (trace w'') = deliveries (trace w) /\
      is_connected (this w'') = true).
Proof.
  intros B H.
  destruct (history_spec nm sf es w B H) as (C & D & L & _ & _).
  split; [exact D|]. split; [exact L|].
  split; [intros; apply connect_failure_delivered; assumption|].
  split; [intros; apply tcp_failure_delivered; assumption|].
  split; [intros; apply authentication_delivered; assumption|].
  intros es' w'' B' N I H'.
  destruct (run_spec es' w w'' C B' H') as (_ & D' & L' & _ & _).
  assert (A : armed w = 0%nat) by (unfold armed; rewrite I; reflexivity).
  rewrite D', length_app, A, N in L'.
  assert (O : outcomes es' = []).
  { destruct (outcomes es'); [reflexivity|cbn in L'; lia]. }
  rewrite O, app_nil_r in D'. split; [exact D'|].
  rewrite O in L'. cbn in L'. unfold armed in L'.
  destruct (is_connected (this w'')); [reflexivity|lia].
Qed.

(** C2, as the code has it.  When a stage reports failure (the PseudoTcp
    connect, inside Connect or later, or the authentication) in a history
    as above, the owner's callback is run with no socket and finds the
    PseudoTcp adapter, the channel and the authenticator already released.
    The port allocator is not released: the callback finds it in place, and
    it stays once the callback has returned. *)
Theorem failure_releases_before_notifying
    (nm : NetworkManager) (sf : PacketSocketFactory)
    (es : list Event) (e : Event) (w w' : World) :
  forallb owner_contract es = true ->
  run es (World_new nm sf) = Ok (tt, w) ->
  failure_event e = true ->
  step e w = Ok (tt, w') ->
  exists pre cb seen,
    trace w' = trace w ++ pre ++ [CallbackRun cb None seen] /\
    deliveries pre = [] /\
    socket_ seen = None /\ channel_ seen = None /\
    authenticator_ seen = None /\
    is_null (port_allocator_ seen) = false /\
    port_allocator_ (this w') = port_allocator_ seen.
Proof.
  intros B H F S.
  destruct (history_spec nm sf es w B H) as (C & _).
  destruct (failure_spec e w w' C F S)
    as (pre & cb & seen & T & D & X1 & X2 & X3 & X4 & X5 & _).
  exists pre, cb, seen. repeat split; assumption.
Qed.

(** C3, as the code has it.  In a history as above, is_connected() is
    true exactly when no stored callback is waiting for its run, that is
    when every call of Connect so far has been answered: before Connect is
    first called (nothing delivered yet) and after a delivery; it is false
    between Connect and the delivery. *)
Theorem is_connected_iff_nothing_outstanding
    (nm : NetworkManager) (sf : PacketSocketFactory)
    (es : list Event) (w : World) :
  forallb owner_contract es = true ->
  run es (World_new nm sf) = Ok (tt, w) ->
  (is_connected (this w) = true <->
   length (deliveries (trace w)) = connects es) /\
  (is_connected (this w) = false <->
   S (length (deliveries (trace w))) = connects es).
Proof.
  intros B H.
  destruct (history_spec nm sf es w B H) as (_ & _ & L & _ & _).
  unfold armed in L.
  destruct (is_connected (this w)); split; split; intros; try lia;
    try reflexivity; try discriminate.
Qed.

(** C5.  Whenever Connect returns, the port allocator it created has the
    TCP-disabling flag set and the configured port range; with NAT
    traversal off it is a BasicPortAllocator with the STUN- and
    relay-disabling flags set as well; with NAT traversal on it is the
    HttpPortAllocator, with the TCP-disabling flag alone. *)
Theorem Connect_configures_port_allocator
    (callback : option ConnectedCallback) (connect_result : Z)
    (w w' : World) :
  Connect callback connect_result w = Ok (tt, w') ->
  exists a,
    port_allocator_ (this w') = Some a /\
    has_flag PORTALLOCATOR_DISABLE_TCP a /\
    port_range a
    = Some (min_port (config_ (this w)), max_port (config_ (this w))) /\
    allocator_network_manager a = network_manager_ (this w) /\
    allocator_socket_factory a = socket_factory_ (this w) /\
    (nat_traversal (config_ (this w)) = false ->
     allocator_kind a = BasicPortAllocator /\
     has_flag PORTALLOCATOR_DISABLE_STUN a /\
     has_flag PORTALLOCATOR_DISABLE_RELAY a) /\
    (nat_traversal (config_ (this w)) = true ->
     allocator_kind a = HttpPortAllocator /\
     flags a = Some PORTALLOCATOR_DISABLE_TCP /\
     http_port_allocator_ (this w') = true).
Proof.
  intros H. rewrite Connect_unfold in H.
  destruct (is_null (channel_ (this w))); [|discriminate H].
  assert (P : port_allocator_ (this w')
              = Some (Connect_port_allocator (this w)) /\
              http_port_allocator_ (this w')
              = (if nat_traversal (config_ (this w)) then true
                 else http_port_allocator_ (this w))).
  { destruct (negb (connect_result =? ERR_IO_PENDING)).
    - apply OnTcpConnected_spec in H. destruct H as (P & Q & _).
      rewrite P, Q. split; reflexivity.
    - injection H as <-. split; reflexivity. }
  destruct P as [P Q].
  exists (Connect_port_allocator (this w)).
  split; [exact P|]. unfold Connect_port_allocator, has_flag.
  destruct (nat_traversal (config_ (this w))); cbn.
  - repeat split; try discriminate; try assumption.
    eexists; split; [reflexivity|apply Z.land_diag].
  - repeat split; try discriminate.
    + eexists; split; [reflexivity|apply land_lor_l].
    + eexists; split; [reflexivity|apply land_lor_rl].
    + eexists; split; [reflexivity|apply land_lor_rr].
Qed.

(** C6.  Whenever Connect returns, whatever the configuration and the
    outcome, it has called Connect on exactly one new PseudoTcp adapter,
    which was set up with a receive buffer of 262144 bytes, a send buffer
    of 262144 + 30720 = 292864 bytes, no delay (Nagle off) and an
    acknowledgment delay of 10 ms. *)
Theorem Connect_configures_socket
    (callback : option ConnectedCallback) (connect_result : Z)
    (w w' : World) :
  Connect callback connect_result w = Ok (tt, w') ->
  exists s,
    connected_sockets (trace w') = connected_sockets (trace w) ++ [s] /\
    receive_buffer_size s = Some 262144 /\
    send_buffer_size s = Some (262144 + 30720) /\
    send_buffer_size s = Some 292864 /\
    no_delay s = Some true /\
    ack_delay s = Some 10.
Proof.
  intros H. rewrite Connect_unfold in H.
  destruct (is_null (channel_ (this w))); [|discriminate H].
  exists Connect_socket. split; [|repeat split].
  destruct (negb (connect_result =? ERR_IO_PENDING)).
  - apply OnTcpConnected_spec in H. destruct H as (_ & _ & P & _).
    rewrite P. cbn. rewrite !connected_sockets_app. cbn.
    rewrite app_nil_r. reflexivity.
  - injection H as <-. cbn. rewrite !connected_sockets_app. cbn.
    rewrite app_nil_r. reflexivity.
Qed.

(** C7.  Whenever Connect returns: if the adapter answered
    ERR_IO_PENDING, nothing has been delivered or handed to the
    authenticator, and the adapter, owned by the transport, holds the
    completion callback; if it answered anything else, Connect has run
    OnTcpConnected with that answer before returning and the adapter holds
    no callback: on OK the very adapter just connected is with the
    authenticator, which holds the done-callback, and nothing has been
    delivered; on an error the failure has been delivered. *)
Theorem Connect_proceeds_when_synchronous
    (callback : option ConnectedCallback) (connect_result : Z)
    (w w' : World) :
  Connect callback connect_result w = Ok (tt, w') ->
  (connect_result = ERR_IO_PENDING ->
   w' = Connect_started callback connect_result w /\
   connecting (socket_ (this w')) = true /\
   callback_ (this w') = callback /\
   deliveries (trace w') = deliveries (trace w) /\
   authenticated_sockets (trace w') = authenticated_sockets (trace w)) /\
  (connect_result <> ERR_IO_PENDING ->
   OnTcpConnected connect_result
     (Connect_started callback connect_result w) = Ok (tt, w') /\
   connecting (socket_ (this w')) = false /\
   (connect_result = OK ->
    authenticated_sockets (trace w')
    = authenticated_sockets (trace w) ++ [Some Connect_socket] /\
    connected_sockets (trace w')
    = connected_sockets (trace w) ++ [Connect_socket] /\
    handshaking (authenticator_ (this w')) = true /\
    callback_ (this w') = callback /\
    deliveries (trace w') = deliveries (trace w)) /\
   (connect_result <> OK ->
    deliveries (trace w') = deliveries (trace w) ++ [None] /\
    authenticated_sockets (trace w') = authenticated_sockets (trace w) /\
    callback_ (this w') = None)).
Proof.
  intros H. rewrite Connect_unfold in H.
  destruct (is_null (channel_ (this w))); [|discriminate H].
  split.
  - intros ->. rewrite Z.eqb_refl in *. cbn in H. injection H as <-.
    cbn. rewrite Z.eqb_refl.
    rewrite !deliveries_app, !authenticated_sockets_app. cbn.
    rewrite !app_nil_r. repeat split.
  - intros P. apply Z.eqb_neq in P. rewrite P in H. cbn in H.
    split; [exact H|].
    apply OnTcpConnected_spec in H.
    destruct H as (_ & _ & CS & S & R).
    split; [rewrite S; reflexivity|].
    cbn in CS, R. rewrite P in R.
    rewrite !connected_sockets_app in CS.
    rewrite !deliveries_app, !authenticated_sockets_app in R.
    cbn in CS, R. rewrite !app_nil_r in *.
    split.
    + intros ->. rewrite Z.eqb_refl in R.
      destruct R as (R1 & R2 & R3 & R4). repeat split; assumption.
    + intros Q. apply Z.eqb_neq in Q. rewrite Q in R.
      destruct R as (R1 & R2 & R3 & R4). repeat split; assumption.
Qed.

(** C8, as the code has it.  In a history as above, the candidates handed
    to the channel are those the owner added, in the order of the calls;
    and while a stored callback waits for its run (Connect has been called,
    the completion has not been delivered), any number of further
    AddRemoteCandidate calls run without a fault, change nothing in the
    object and reach the channel in the order of the calls. *)
Theorem candidates_forwarded_in_order_while_connecting
    (nm : NetworkManager) (sf : PacketSocketFactory)
    (es : list Event) (w : World) (cs : list Candidate) :
  forallb owner_contract es = true ->
  run es (World_new nm sf) = Ok (tt, w) ->
  is_connected (this w) = false ->
  forwarded (trace w) = added es /\
  exists w',
    run (map EvAddRemoteCandidate cs) w = Ok (tt, w') /\
    this w' = this w /\
    trace w' = trace w ++ map ChannelOnCandidate cs /\
    forwarded (trace w') = added es ++ cs.
Proof.
  intros B H N.
  destruct (history_spec nm sf es w B H)
    as ((C1 & _ & _ & C4 & _) & _ & _ & F & _).
  split; [exact F|].
  unfold is_connected in N.
  assert (D : deleted w = false).
  { destruct (deleted w); [|reflexivity].
    destruct (C4 eq_refl) as [X _]. congruence. }
  eexists. split; [apply add_candidates_spec; auto|].
  cbn. repeat split.
  rewrite forwarded_app, F. f_equal.
  clear. induction cs as [|c cs IH]; cbn; [reflexivity|].
  rewrite IH. reflexivity.
Qed.

(** C10.  A transport that has just been constructed answers true to
    is_connected(), and still does after Initialize, although nothing has
    been delivered: the callback slot is null.  It is null again after the
    callback has run. *)
Theorem is_connected_on_fresh_transport
    (nm : NetworkManager) (sf : PacketSocketFactory) :
  is_connected (LibjingleStreamTransport_new nm sf) = true /\
  callback_ (LibjingleStreamTransport_new nm sf) = None /\
  deliveries (trace (World_new nm sf)) = [] /\
  (forall name config event_handler authenticator,
      match Initialize name config event_handler authenticator
                       (World_new nm sf) with
      | Ok (_, w) =>
          is_connected (this w) = true /\ deliveries (trace w) = []
      | Err _ => True
      end) /\
  (forall socket w,
      match NotifyConnected socket w with
      | Ok (_, w') =>
          is_connected (this w) = false /\
          is_connected (this w') = true /\ callback_ (this w') = None
      | Err _ => True
      end).
Proof.
  repeat split.
  - intros name config event_handler authenticator.
    unfold_members. cbn.
    destruct (negb (name =? EmptyString)%string); cbn; [|exact I].
    destruct (negb (is_null event_handler)); cbn; [|exact I].
    split; reflexivity.
  - intros socket [[nm' sf' n c eh cb au pa hpa ch so] d g tr].
    unfold_members. cbn.
    destruct cb; cbn; [|exact I]. repeat split.
Qed.

(** * Further properties of the transport *)

Lemma surfaced_app (a b : list Call) :
  surfaced (a ++ b) = surfaced a ++ surfaced b.
Proof.
  induction a as [|c a IH]; [reflexivity|].
  destruct c; simpl; rewrite IH; reflexivity.
Qed.

Lemma notified_app (a b : list Call) :
  notified (a ++ b) = notified a ++ notified b.
Proof.
  induction a as [|c a IH]; [reflexivity|].
  destruct c; simpl; rewrite IH; reflexivity.
Qed.

Lemma deletions_app (a b : list Call) :
  deletions (a ++ b) = (deletions a + deletions b)%nat.
Proof.
  induction a as [|c a IH]; [reflexivity|].
  destruct c; simpl; rewrite IH; reflexivity.
Qed.

Lemma signaling_answers_app (a b : list Call) :
  signaling_answers (a ++ b)
  = (signaling_answers a + signaling_answers b)%nat.
Proof.
  induction a as [|c a IH]; [reflexivity|].
  destruct c; simpl; rewrite IH; reflexivity.
Qed.

Lemma channel_connects_app (a b : list Call) :
  channel_connects (a ++ b) = (channel_connects a + channel_connects b)%nat.
Proof.
  induction a as [|c a IH]; [reflexivity|].
  destruct c; simpl; rewrite IH; reflexivity.
Qed.

Ltac more_traces :=
  rewrite ?surfaced_app, ?notified_app, ?deletions_app,
    ?signaling_answers_app, ?channel_connects_app, ?deliveries_app,
    ?forwarded_app, ?connected_sockets_app, ?authenticated_sockets_app;
  cbn;
  rewrite ?app_nil_r, ?Nat.add_0_r.

(** Run one event symbolically: afterwards [w'] is written out. *)
Ltac exec_step e w H :=
  destruct e;
  [ | rewrite step_Connect, Connect_unfold in H;
      unfold Connect_started in H | .. ];
  destruct w as [[nm sf n c eh cb au pa hpa ch so] d g tr];
  unfold_members; break_in H;
  injection H as <-; cbn; more_traces; bool_facts.

(** ** What one event does to the calls made and to the identity *)

Lemma step_calls (e : Event) (w w' : World) :
  step e w = Ok (tt, w') ->
  surfaced (trace w') = surfaced (trace w) ++ ready [e] /\
  signaling_answers (trace w')
  = (signaling_answers (trace w) + signalings [e])%nat /\
  channel_connects (trace w')
  = (channel_connects (trace w) + connects [e])%nat /\
  connected_sockets (trace w')
  = connected_sockets (trace w) ++ repeat Connect_socket (connects [e]).
Proof.
  intros H. exec_step e w H.
  all: repeat split; auto with arith.
Qed.

Lemma step_identity (e : Event) (w w' : World) :
  step e w = Ok (tt, w') ->
  name_ (this w) <> EmptyString ->
  name_ (this w') = name_ (this w) /\
  config_ (this w') = config_ (this w) /\
  event_handler_ (this w') = event_handler_ (this w).
Proof.
  intros H N. exec_step e w H.
  all: cbn in N; repeat split.
  all: exfalso; apply N; apply String.eqb_eq; assumption.
Qed.

Lemma step_shaped (e : Event) (w w' : World) :
  shaped w -> step e w = Ok (tt, w') ->
  shaped w' /\
  exists k,
    authenticated_sockets (trace w')
    = authenticated_sockets (trace w) ++ repeat (Some Connect_socket) k /\
    (k + owned_sockets w' <= owned_sockets w + connects [e])%nat.
Proof.
  intros (J1 & J2 & J3 & J4) H.
  unfold shaped, owned_sockets, configured in *.
  exec_step e w H.
  all: cbn in J1, J2, J3, J4.
  (* Initialize: the handler changes; until then none was called. *)
  1: { apply String.eqb_eq in Heqb2. specialize (J3 Heqb2). subst eh.
       assert (X : notified tr = []).
       { destruct (notified tr) as [|h l]; [reflexivity|].
         inversion J4; discriminate. }
       rewrite X. split; [|exists 0%nat; split; [cbn; rewrite app_nil_r; reflexivity|lia]].
       repeat split; auto. intros ->. discriminate. }
  (* every other event leaves name and handler alone *)
  all: try rewrite Forall_app.
  all: try (split;
            [ repeat split; auto; try discriminate;
              try (repeat constructor; assumption)
            | ]).
  all: try (exists 0%nat; split; [cbn; rewrite ?app_nil_r; reflexivity|];
            cbn; destruct so; cbn in *; lia).
  all: try (exists 1%nat; split; [cbn; try rewrite J2; reflexivity|];
            destruct so, ch; cbn in *;
            try specialize (J1 eq_refl); try discriminate; lia).

Qed.

Lemma step_deleted (e : Event) (w w' : World) :
  step e w = Ok (tt, w') ->
  deleted w = false /\
  (deleted w' = false -> deletions (trace w') = deletions (trace w)) /\
  (deleted w' = true ->
   is_connected (this w') = true /\
   exists h, trace w' = trace w ++ [OnTransportDeleted h]).
Proof.
  intros H. exec_step e w H.
  all: repeat split; intros; try discriminate; eauto.
Qed.


(** ** Whole histories *)

Lemma ready_cons (e : Event) (es : list Event) :
  ready (e :: es) = ready [e] ++ ready es.
Proof. destruct e; reflexivity. Qed.

Lemma signalings_cons (e : Event) (es : list Event) :
  signalings (e :: es) = (signalings [e] + signalings es)%nat.
Proof. destruct e; reflexivity. Qed.

Lemma run_calls (es : list Event) :
  forall w w',
    run es w = Ok (tt, w') ->
    surfaced (trace w') = surfaced (trace w) ++ ready es /\
    signaling_answers (trace w')
    = (signaling_answers (trace w) + signalings es)%nat /\
    channel_connects (trace w')
    = (channel_connects (trace w) + connects es)%nat /\
    connected_sockets (trace w')
    = connected_sockets (trace w) ++ repeat Connect_socket (connects es).
Proof.
  induction es as [|e es IH]; intros w w' H.
  - injection H as <-. cbn. rewrite !app_nil_r, !Nat.add_0_r. auto.
  - rewrite run_cons in H.
    destruct (step e w) as [[[] w1]|] eqn:S1; [|discriminate].
    destruct (step_calls e w w1 S1) as (A1 & B1 & C1 & D1).
    destruct (IH w1 w' H) as (A & B & C & D).
    rewrite ready_cons, signalings_cons, connects_cons, repeat_app.
    rewrite A, B, C, D, A1, B1, C1, D1, <- !app_assoc.
    repeat split; lia.
Qed.

Lemma run_identity (es : list Event) :
  forall w w',
    run es w = Ok (tt, w') ->
    name_ (this w) <> EmptyString ->
    name_ (this w') = name_ (this w) /\
    config_ (this w') = config_ (this w) /\
    event_handler_ (this w') = event_handler_ (this w).
Proof.
  induction es as [|e es IH]; intros w w' H N.
  - injection H as <-. auto.
  - rewrite run_cons in H.
    destruct (step e w) as [[[] w1]|] eqn:S1; [|discriminate].
    destruct (step_identity e w w1 S1 N) as (A1 & B1 & C1).
    assert (N1 : name_ (this w1) <> EmptyString) by (rewrite A1; exact N).
    destruct (IH w1 w' H N1) as (A & B & C).
    rewrite A, B, C. auto.
Qed.

Lemma run_shaped (es : list Event) :
  forall w w',
    shaped w -> run es w = Ok (tt, w') ->
    shaped w' /\
    exists k,
      authenticated_sockets (trace w')
      = authenticated_sockets (trace w) ++ repeat (Some Connect_socket) k /\
      (k + owned_sockets w' <= owned_sockets w + connects es)%nat.
Proof.
  induction es as [|e es IH]; intros w w' J H.
  - injection H as <-. split; [exact J|].
    exists 0%nat. cbn. rewrite app_nil_r. split; [reflexivity|lia].
  - rewrite run_cons in H.
    destruct (step e w) as [[[] w1]|] eqn:S1; [|discriminate].
    destruct (step_shaped e w w1 J S1) as (J1 & k1 & A1 & L1).
    destruct (IH w1 w' J1 H) as (J' & k & A & L).
    split; [exact J'|]. exists (k1 + k)%nat.
    rewrite A, A1, <- app_assoc, repeat_app, connects_cons.
    split; [reflexivity|lia].
Qed.

Lemma run_deleted (es : list Event) :
  forall w w',
    run es w = Ok (tt, w') ->
    deleted w = false -> deletions (trace w) = 0%nat ->
    (deleted w' = false -> deletions (trace w') = 0%nat) /\
    (deleted w' = true ->
     deletions (trace w') = 1%nat /\
     is_connected (this w') = true /\
     exists tr0 h, trace w' = tr0 ++ [OnTransportDeleted h]).
Proof.
  induction es as [|e es IH]; intros w w' H D Z.
  - injection H as <-. split; [auto|]. intros X. congruence.
  - rewrite run_cons in H.
    destruct (step e w) as [[[] w1]|] eqn:S1; [|discriminate].
    destruct (step_deleted e w w1 S1) as (_ & Keep & Gone).
    destruct (deleted w1) eqn:D1.
    + destruct es as [|e' es].
      * injection H as <-. rewrite D1. split; [discriminate|]. intros _.
        destruct (Gone eq_refl) as (I & h & T).
        split; [|split; [exact I|eauto]].
        rewrite T, deletions_app, Z. reflexivity.
      * rewrite run_cons in H.
        destruct (step e' w1) as [[[] w2]|] eqn:S2; [|discriminate].
        destruct (step_deleted e' w1 w2 S2) as (X & _). congruence.
    + apply (IH w1 w' H D1). rewrite (Keep eq_refl). exact Z.
Qed.

Lemma shaped_new (nm : NetworkManager) (sf : PacketSocketFactory) :
  shaped (World_new nm sf).
Proof.
  repeat split; cbn; auto; intros; discriminate.
Qed.


(** ** What Initialize fixes *)

Lemma Initialize_sets (n : string) (c : TransportConfig)
    (h : option EventHandler) (a : option ChannelAuthenticator)
    (w w' : World) :
  step (EvInitialize n c h a) w = Ok (tt, w') ->
  n <> EmptyString /\ h <> None /\
  name_ (this w') = n /\ config_ (this w') = c /\
  event_handler_ (this w') = h.
Proof.
  intros H.
  destruct w as [[nm sf n0 c0 eh cb au pa hpa ch so] d g tr].
  unfold_members; break_in H. injection H as <-. cbn. bool_facts.
  repeat split.
  - intros ->. discriminate.
  - intros ->. discriminate.
Qed.

(** X1.  Initialize takes effect once: whatever happens after a
    successful Initialize, the name (non-empty), the configuration and the
    event handler (non-NULL) it stored are still the ones in force, and
    every further call of Initialize, whatever its arguments, stops at a
    DCHECK. *)
Theorem Initialize_only_once
    (n : string) (c : TransportConfig) (h : option EventHandler)
    (a : option ChannelAuthenticator) (w0 w1 : World)
    (es : list Event) (w : World) :
  step (EvInitialize n c h a) w0 = Ok (tt, w1) ->
  run es w1 = Ok (tt, w) ->
  n <> EmptyString /\ h <> None /\
  name (this w) = n /\ config_ (this w) = c /\
  event_handler_ (this w) = h /\
  forall n' c' h' a', Initialize n' c' h' a' w = Err DCheckFailed.
Proof.
  intros I R.
  destruct (Initialize_sets n c h a w0 w1 I) as (N & Hh & A & B & C).
  assert (N1 : name_ (this w1) <> EmptyString) by (rewrite A; exact N).
  destruct (run_identity es w1 w R N1) as (A' & B' & C').
  unfold name. rewrite A', B', C', A, B, C.
  repeat split; try assumption.
  intros n' c' h' a'.
  assert (X : String.eqb (name_ (this w)) EmptyString = false).
  { apply String.eqb_neq. rewrite A', A. exact N. }
  destruct w as [t d g tr]. cbn in X.
  unfold_members. cbn.
  destruct (negb (String.eqb n' EmptyString)); cbn; [|reflexivity].
  destruct (negb (is_null h')); cbn; [|reflexivity].
  rewrite X. reflexivity.
Qed.

(** X2.  The destructor's assertions hold wherever it may run: at every
    point of a history in which the owner keeps its contract, a transport
    that answers true to is_connected() no longer owns the PseudoTcp
    adapter, so on an initialized transport the destructor passes both its
    DCHECKs and tells the event handler OnTransportDeleted, last of all. *)
Theorem destructor_assertions_hold
    (nm : NetworkManager) (sf : PacketSocketFactory)
    (es : list Event) (w : World) (h : EventHandler) :
  forallb owner_contract es = true ->
  run es (World_new nm sf) = Ok (tt, w) ->
  event_handler_ (this w) = Some h ->
  (is_connected (this w) = true -> socket_ (this w) = None) /\
  exists w',
    LibjingleStreamTransport_delete w = Ok (tt, w') /\
    deleted w' = true /\ this w' = this w /\
    trace w' = trace w ++ [OnTransportDeleted h].
Proof.
  intros B R Hh.
  destruct (history_spec nm sf es w B R) as ((_ & C2 & _) & _).
  destruct w as [[nm' sf' n c eh cb au pa hpa ch so] d g tr].
  cbn in C2, Hh. subst eh. unfold is_connected. cbn.
  assert (X : is_null cb = true -> so = None).
  { intros I. destruct so; [|reflexivity].
    specialize (C2 eq_refl). congruence. }
  split; [exact X|].
  unfold_members. cbn.
  destruct cb; cbn; [eexists; repeat split|].
  rewrite (X eq_refl). cbn. eexists; repeat split.
Qed.

(** X3.  The event handler hears of the deletion once, and last: in every
    history from the constructor, a live transport has never called
    OnTransportDeleted, and a deleted one has called it exactly once, as
    its final call, on the handler stored by Initialize, and only after the
    owner's callback slot was emptied. *)
Theorem deletion_notified_once_and_last
    (nm : NetworkManager) (sf : PacketSocketFactory)
    (es : list Event) (w : World) :
  run es (World_new nm sf) = Ok (tt, w) ->
  (deleted w = false -> deletions (trace w) = 0%nat) /\
  (deleted w = true ->
   deletions (trace w) = 1%nat /\
   is_connected (this w) = true /\
   exists tr0 h,
     trace w = tr0 ++ [OnTransportDeleted h] /\
     event_handler_ (this w) = Some h).
Proof.
  intros R.
  destruct (run_deleted es _ w R eq_refl eq_refl) as [Live Gone].
  destruct (run_shaped es _ w (shaped_new nm sf) R)
    as ((_ & _ & _ & J4) & _).
  split; [exact Live|]. intros D.
  destruct (Gone D) as (One & I & tr0 & h & T).
  split; [exact One|]. split; [exact I|].
  exists tr0, h. split; [exact T|].
  rewrite T, notified_app in J4. apply Forall_app in J4 as [_ J4].
  inversion J4; assumption.
Qed.

Lemma surfaced_notified (tr : list Call) :
  notified tr = [] -> surfaced tr = [].
Proof.
  induction tr as [|c tr IH]; [reflexivity|].
  destruct c; cbn; intros Q; try discriminate; auto.
Qed.

(** X4.  Local candidates reach the event handler in the order in which
    the channel signalled them, and every call made on an event handler
    so far went to the handler that Initialize stored; so no candidate is
    surfaced by a transport that was never initialized. *)
Theorem local_candidates_surfaced_in_order
    (nm : NetworkManager) (sf : PacketSocketFactory)
    (es : list Event) (w : World) :
  run es (World_new nm sf) = Ok (tt, w) ->
  surfaced (trace w) = ready es /\
  Forall (fun h => event_handler_ (this w) = Some h) (notified (trace w)) /\
  (ready es <> [] ->
   name (this w) <> EmptyString /\ event_handler_ (this w) <> None).
Proof.
  intros R.
  destruct (run_calls es _ w R) as (A & _).
  destruct (run_shaped es _ w (shaped_new nm sf) R)
    as ((_ & _ & J3 & J4) & _).
  cbn in A. split; [exact A|]. split; [exact J4|].
  intros N. rewrite <- A in N.
  assert (X : event_handler_ (this w) <> None).
  { destruct (notified (trace w)) as [|h0 l] eqn:Q.
    - exfalso. apply N. apply surfaced_notified. exact Q.
    - inversion J4; congruence. }
  split; [|exact X]. intros Y. apply X. apply J3. exact Y.
Qed.

(** X5.  The channel is driven one to one: in every history from the
    constructor, channel_->Connect() was called exactly once per call of
    Connect, and channel_->OnSignalingReady() exactly once per signaling
    request of the channel. *)
Theorem channel_driven_one_to_one
    (nm : NetworkManager) (sf : PacketSocketFactory)
    (es : list Event) (w : World) :
  run es (World_new nm sf) = Ok (tt, w) ->
  channel_connects (trace w) = connects es /\
  signaling_answers (trace w) = signalings es.
Proof.
  intros R. destruct (run_calls es _ w R) as (_ & B & C & _).
  cbn in B, C. auto.
Qed.

(** X6.  One adapter per Connect, handed over at most once: in every
    history from the constructor, each call of Connect connected one
    adapter with the fixed configuration; the authenticator was never
    given a NULL socket, but always such an adapter, holding no connect
    callback; and the adapters handed over, plus the one the transport may
    still own, never outnumber the calls of Connect. *)
Theorem authenticator_receives_configured_socket
    (nm : NetworkManager) (sf : PacketSocketFactory)
    (es : list Event) (w : World) :
  run es (World_new nm sf) = Ok (tt, w) ->
  connected_sockets (trace w) = repeat Connect_socket (connects es) /\
  configured (socket_ (this w)) /\
  exists k,
    authenticated_sockets (trace w) = repeat (Some Connect_socket) k /\
    (k + owned_sockets w <= connects es)%nat.
Proof.
  intros R.
  destruct (run_calls es _ w R) as (_ & _ & _ & D).
  destruct (run_shaped es _ w (shaped_new nm sf) R)
    as ((_ & J2 & _) & k & A & L).
  cbn in D, A, L. split; [exact D|]. split; [exact J2|].
  exists k. split; [exact A|exact L].
Qed.

(** X7.  Connect builds on what Initialize stored: however much happens
    between the two, a Connect that does not fail at once leaves a channel
    that bears the name given to Initialize, has both signals connected
    and was told to connect, over an allocator of the kind the
    configuration given to Initialize selects, with its port range. *)
Theorem Connect_creates_named_channel
    (n : string) (c : TransportConfig) (h : option EventHandler)
    (a : option ChannelAuthenticator) (w0 w1 : World)
    (es : list Event) (w w' : World)
    (cb : option ConnectedCallback) (connect_result : Z) :
  step (EvInitialize n c h a) w0 = Ok (tt, w1) ->
  run es w1 = Ok (tt, w) ->
  step (EvConnect cb connect_result) w = Ok (tt, w') ->
  (connect_result =? ERR_IO_PENDING) || (connect_result =? OK) = true ->
  channel_ (this w')
  = Some {| channel_name := n; SignalRequestSignaling := true;
            SignalCandidateReady := true; channel_connect_called := true |} /\
  exists pa,
    port_allocator_ (this w') = Some pa /\
    port_range pa = Some (min_port c, max_port c) /\
    allocator_kind pa
    = if nat_traversal c then HttpPortAllocator else BasicPortAllocator.
Proof.
  intros I R H P.
  destruct (Initialize_sets n c h a w0 w1 I) as (N & _ & A & B & _).
  assert (N1 : name_ (this w1) <> EmptyString) by (rewrite A; exact N).
  destruct (run_identity es w1 w R N1) as (A' & B' & _).
  rewrite A in A'. rewrite B in B'. clear I R N1 A B.
  rewrite step_Connect, Connect_unfold in H. unfold Connect_started in H.
  destruct w as [[nm sf n0 c0 eh cb0 au pa hpa ch so] d g tr].
  cbn in A', B'. subst n0 c0.
  unfold_members; break_in H.
  all: injection H as <-; cbn; bool_facts; cbn in *; try discriminate.
  all: try solve [ repeat match goal with
                        | Hf : (_ =? _) = _ |- _ => rewrite Hf in P
                        end; discriminate P ].
  all: split; [reflexivity|].
  all: unfold Connect_port_allocator; cbn.
  all: destruct (nat_traversal c); try discriminate; eexists; repeat split.
Qed.



(** ** A whole connection attempt *)



(** ** The owner lets go of the socket inside its callback *)

Lemma NotifyConnected_owner_Keeps (socket : option StreamSocket) (w : World) :
  NotifyConnected_owner Keeps socket w = NotifyConnected socket w.
Proof.
  destruct w as [[nm sf n c eh cb au pa hpa ch so] d g tr].
  unfold NotifyConnected_owner. unfold_members. cbn.
  destruct cb; reflexivity.
Qed.

Lemma AuthenticationDone_owner_Keeps (error : Z)
    (socket : option StreamSocket) (w : World) :
  AuthenticationDone_owner Keeps error socket w
  = step (EvAuthenticationDone error socket) w.
Proof.
  destruct w as [[nm sf n c eh cb au pa hpa ch so] d g tr].
  unfold AuthenticationDone_owner, OnAuthenticationDone_owner,
    NotifyConnected_owner.
  unfold_members. cbn.
  destruct d; [reflexivity|]. cbn.
  destruct au as [[raw []]|]; reflexivity.
Qed.

Lemma spent_step (e : Event) (w w' : World) :
  spent w -> step e w = Ok (tt, w') -> spent w'.
Proof.
  intros (Q1 & Q2 & Q3 & Q4 & Q5 & Q6) H. unfold spent.
  exec_step e w H.
  all: cbn in *; try discriminate; try congruence;
    repeat split; auto; congruence.
Qed.

Lemma spent_run (es : list Event) :
  forall w w', spent w -> run es w = Ok (tt, w') -> spent w'.
Proof.
  induction es as [|e es IH]; intros w w' Q H.
  - injection H as <-. exact Q.
  - rewrite run_cons in H.
    destruct (step e w) as [[[] w1]|] eqn:S1; [|discriminate].
    apply (IH w1 w' (spent_step e w w1 Q S1) H).
Qed.

(** C4.  The code at the input on which it fails the claim, next to the
    input on which it keeps it.  In a history as above, let the
    authenticator be about to report success on an initialized transport
    whose channel adapter is alive.  If the owner lets go of the socket
    inside its callback, OnChannelDestroyed runs while callback_ is still
    set: the socket has been delivered and released, yet the transport is
    not deleted, and no later event ever deletes it or tells the handler
    OnTransportDeleted.  If the owner keeps the socket and lets go of it
    after the callback has returned, the same event deletes the
    transport.  If the event fires before the authenticator has reported,
    it changes nothing. *)
Theorem socket_released_inside_callback_never_deletes
    (nm : NetworkManager) (sf : PacketSocketFactory)
    (es : list Event) (w : World)
    (error : Z) (s : StreamSocket) (h : EventHandler) :
  forallb owner_contract es = true ->
  run es (World_new nm sf) = Ok (tt, w) ->
  handshaking (authenticator_ (this w)) = true ->
  destroyed_callback w = true ->
  event_handler_ (this w) = Some h ->
  (error =? OK) = true ->
  (exists w',
      AuthenticationDone_owner Drops error (Some s) w = Ok (tt, w') /\
      deliveries (trace w') = deliveries (trace w) ++ [Some s] /\
      is_connected (this w') = true /\
      deleted w' = false /\
      forall es' w'',
        run es' w' = Ok (tt, w'') ->
        deleted w'' = false /\ deletions (trace w'') = 0%nat) /\
  (exists w1 w2,
      AuthenticationDone_owner Keeps error (Some s) w = Ok (tt, w1) /\
      step (EvAuthenticationDone error (Some s)) w = Ok (tt, w1) /\
      deliveries (trace w1) = deliveries (trace w) ++ [Some s] /\
      deleted w1 = false /\
      step EvChannelDestroyed w1 = Ok (tt, w2) /\
      deleted w2 = true /\
      trace w2 = trace w1 ++ [OnTransportDeleted h]) /\
  (exists w3,
      step EvChannelDestroyed w = Ok (tt, w3) /\
      deleted w3 = false /\ this w3 = this w /\ trace w3 = trace w).
Proof.
  intros B R A G Hh O.
  destruct (history_spec nm sf es w B R) as ((C1 & C2 & C3 & C4 & _) & _).
  assert (Z0 : deleted w = false -> deletions (trace w) = 0%nat)
    by apply (run_deleted es _ w R eq_refl eq_refl).
  destruct w as [[nm' sf' n c eh cb au pa hpa ch so] d g tr].
  cbn in C1, C2, C3, C4, A, G, Hh, Z0. subst g eh.
  destruct (C3 A) as [So Cb].
  destruct so; [discriminate So|].
  destruct cb as [cb|]; [|discriminate Cb].
  specialize (C1 eq_refl).
  destruct ch as [ch|]; [|discriminate C1].
  destruct d; [destruct (C4 eq_refl); discriminate|].
  specialize (Z0 eq_refl).
  destruct au as [[raw []]|]; try discriminate A.
  split; [|split].
  - eexists. split.
    { unfold AuthenticationDone_owner, OnAuthenticationDone_owner,
        NotifyConnected_owner, ChannelAdapterDestroyed.
      unfold_members. cbn. rewrite O. cbn. reflexivity. }
    cbn. rewrite deliveries_app. cbn.
    split; [reflexivity|]. split; [reflexivity|]. split; [reflexivity|].
    intros es' w'' R'.
    assert (Q : spent w'').
    { refine (spent_run es' _ w'' _ R').
      unfold spent. cbn. rewrite deletions_app, Z0. repeat split. }
    destruct Q as (Q1 & _ & _ & _ & _ & Q6). split; assumption.
  - eexists. eexists.
    split; [rewrite AuthenticationDone_owner_Keeps;
            unfold_members; cbn; rewrite O; cbn; reflexivity|].
    split; [unfold_members; cbn; rewrite O; cbn; reflexivity|].
    cbn. rewrite deliveries_app. cbn.
    split; [reflexivity|]. split; [reflexivity|].
    split; [unfold_members; cbn; reflexivity|].
    cbn. split; reflexivity.
  - eexists. split; [unfold_members; cbn; reflexivity|].
    cbn. repeat split.
Qed.

End Histories.

(** ** The factory *)

Section FactoryProofs.
Context {E : Externals}.

(** C9.  CreateStreamTransport always returns a non-NULL pointer to an
    object that did not exist before, constructed on the factory's own
    network manager and socket factory and not yet initialized (no name, no
    event handler, no callback, no authenticator, no allocator, channel or
    socket); the factory, the objects that existed before and the log are
    as they were.  CreateDatagramTransport always logs NOTIMPLEMENTED and
    returns NULL, creating nothing. *)
Theorem CreateStreamTransport_returns_fresh_transport (w : Factory.World) :
  (exists p w' t,
      Factory.CreateStreamTransport w = Ok (Some p, w') /\
      nth_error (Factory.heap w) p = None /\
      nth_error (Factory.heap w') p = Some t /\
      t = LibjingleStreamTransport_new
            (Factory.network_manager_ (Factory.this w))
            (Factory.socket_factory_ (Factory.this w)) /\
      network_manager_ t = Factory.network_manager_ (Factory.this w) /\
      socket_factory_ t = Factory.socket_factory_ (Factory.this w) /\
      name t = EmptyString /\ event_handler_ t = None /\
      callback_ t = None /\ authenticator_ t = None /\
      port_allocator_ t = None /\ channel_ t = None /\ socket_ t = None /\
      Factory.this w' = Factory.this w /\
      Factory.not_implemented_logged w' = Factory.not_implemented_logged w /\
      length (Factory.heap w') = S (length (Factory.heap w)) /\
      (forall q t',
          nth_error (Factory.heap w) q = Some t' ->
          nth_error (Factory.heap w') q = Some t')) /\
  (exists w',
      Factory.CreateDatagramTransport w = Ok (None, w') /\
      Factory.this w' = Factory.this w /\
      Factory.heap w' = Factory.heap w /\
      Factory.not_implemented_logged w'
      = S (Factory.not_implemented_logged w)).
Proof.
  destruct w as [f h l]. split.
  - eexists (length h), _, _. split; [reflexivity|]. cbn.
    split; [apply nth_error_None; auto with arith|].
    split; [rewrite nth_error_app2, Nat.sub_diag by auto with arith;
            reflexivity|].
    repeat split.
    + rewrite length_app. cbn. lia.
    + intros q t' H. rewrite nth_error_app1; [exact H|].
      apply nth_error_Some. congruence.
  - eexists. split; [reflexivity|]. repeat split.
Qed.


(** X11.  The factory can be asked any number of times, in any mix: the
    calls never fail; the stream transports returned are all different
    objects, none of which existed before, each constructed on the
    factory's own network manager and socket factory; every datagram
    request returns NULL and is logged; the factory itself and the
    transports that existed before are unchanged. *)
Theorem factory_creates_distinct_transports (cs : list Factory.Create) :
  forall w : Factory.World,
  exists ps w',
    Factory.create_all cs w = Ok (ps, w') /\
    length ps = length cs /\
    Factory.addresses ps
    = seq (length (Factory.heap w)) (Factory.streams cs) /\
    NoDup (Factory.addresses ps) /\
    Factory.heap w'
    = Factory.heap w
      ++ repeat (LibjingleStreamTransport_new
                   (Factory.network_manager_ (Factory.this w))
                   (Factory.socket_factory_ (Factory.this w)))
                (Factory.streams cs) /\
    Factory.this w' = Factory.this w /\
    Factory.not_implemented_logged w'
    = (Factory.not_implemented_logged w + Factory.datagrams cs)%nat /\
    (forall i, nth_error cs i = Some Factory.Datagram ->
               nth_error ps i = Some None).
Proof.
  induction cs as [|k cs IH]; intros w.
  - exists [], w. cbn. rewrite app_nil_r, Nat.add_0_r.
    repeat split; try constructor. intros [|i]; discriminate.
  - destruct w as [f hp l]. destruct k.
    + destruct (IH {| Factory.this := f;
                      Factory.heap :=
                        hp ++ [LibjingleStreamTransport_new
                                 (Factory.network_manager_ f)
                                 (Factory.socket_factory_ f)];
                      Factory.not_implemented_logged := l |})
        as (ps & w' & R & Ln & A & _ & Hp & T & Lg & Dg).
      cbn in A, Hp, T, Lg.
      exists (Some (length hp) :: ps), w'.
      split.
      { cbn. unfold bind, Factory.CreateStreamTransport, bind, Factory.get,
          Factory.new, ret. cbn.
        change (Factory.create_all cs ?x) with (Factory.create_all cs x).
        rewrite R. reflexivity. }
      rewrite length_app, Nat.add_comm in A. cbn in A.
      assert (A' : Factory.addresses (Some (length hp) :: ps)
                   = seq (length hp) (S (Factory.streams cs)))
        by (cbn; rewrite A; reflexivity).
      cbn [Factory.streams Factory.datagrams Factory.heap Factory.this
           Factory.not_implemented_logged].
      split; [cbn; rewrite Ln; reflexivity|].
      split; [exact A'|].
      split; [rewrite A'; apply seq_NoDup|].
      split; [rewrite Hp, <- app_assoc; reflexivity|].
      split; [exact T|]. split; [exact Lg|].
      intros [|i] Hi; [discriminate|]. cbn in *. apply Dg. exact Hi.
    + destruct (IH {| Factory.this := f; Factory.heap := hp;
                      Factory.not_implemented_logged := S l |})
        as (ps & w' & R & Ln & A & Nd & Hp & T & Lg & Dg).
      cbn in A, Hp, T, Lg.
      exists (None :: ps), w'.
      split.
      { cbn. unfold bind, Factory.CreateDatagramTransport, bind,
          Factory.NOTIMPLEMENTED, ret. cbn. rewrite R. reflexivity. }
      cbn [Factory.streams Factory.datagrams Factory.heap Factory.this
           Factory.not_implemented_logged Factory.addresses].
      split; [cbn; rewrite Ln; reflexivity|].
      split; [exact A|]. split; [exact Nd|]. split; [exact Hp|].
      split; [exact T|]. split; [rewrite Lg; lia|].
      intros [|i] Hi; [reflexivity|]. cbn in *. apply Dg. exact Hi.
Qed.
End FactoryProofs.

(** * The claims on concrete histories *)

#[local] Existing Instance sample.

(** C1 at work: from Initialize to the authenticator's success, the owner
    got one run of its callback, with socket 9, and nothing is waiting. *)
Lemma completion_delivered_exactly_once_witness :
  forallb (@owner_contract sample) history_connected = true /\
  @run sample history_connected sample_World
  = Ok (tt, sample_after history_connected) /\
  deliveries (trace (sample_after history_connected)) = [Some 9%nat] /\
  (length (deliveries (trace (sample_after history_connected)))
   + armed (sample_after history_connected))%nat = 1%nat.
Proof.
  assert (B : forallb (@owner_contract sample) history_connected = true)
    by reflexivity.
  assert (R : @run sample history_connected sample_World
              = Ok (tt, sample_after history_connected))
    by (vm_compute; reflexivity).
  split; [exact B|]. split; [exact R|].
  destruct (@completion_delivered_exactly_once sample 100%nat 200%nat
              history_connected (sample_after history_connected) B R)
    as (D & L & _).
  split; [exact D|exact L].
Defined.

(** C2 as stated fails: when the adapter fails inside Connect, the owner's
    callback is run with no socket while the transport still owns the port
    allocator (the other three are gone). *)
Lemma port_allocator_outlives_failure :
  exists cb seen,
    @run sample history_failed sample_World
    = Ok (tt, sample_after history_failed) /\
    trace (sample_after history_failed)
    = [ChannelConnect; SocketConnect Connect_socket;
       CallbackRun cb None seen] /\
    socket_ seen = None /\ channel_ seen = None /\
    authenticator_ seen = None /\
    port_allocator_ seen
    = Some {| allocator_kind := BasicPortAllocator;
              allocator_network_manager := 100%nat;
              allocator_socket_factory := 200%nat;
              flags := Some 14;
              port_range := Some (12000, 12999) |}.
Proof.
  eexists _, _. vm_compute. repeat split.
Qed.

(** C2 at work: the PseudoTcp connect fails after Connect has returned. *)
Lemma failure_releases_before_notifying_witness :
  forallb (@owner_contract sample) history_connecting = true /\
  @run sample history_connecting sample_World
  = Ok (tt, sample_after history_connecting) /\
  @failure_event sample (EvTcpConnected (-2)) = true /\
  @step sample (EvTcpConnected (-2)) (sample_after history_connecting)
  = Ok (tt, sample_after (history_connecting ++ [@EvTcpConnected sample (-2)])) /\
  exists pre cb seen,
    trace (sample_after (history_connecting ++ [@EvTcpConnected sample (-2)]))
    = trace (sample_after history_connecting)
      ++ pre ++ [CallbackRun cb None seen] /\
    deliveries pre = [] /\
    socket_ seen = None /\ channel_ seen = None /\
    authenticator_ seen = None /\
    is_null (port_allocator_ seen) = false /\
    port_allocator_
      (this (sample_after (history_connecting ++ [@EvTcpConnected sample (-2)])))
    = port_allocator_ seen.
Proof.
  assert (B : forallb (@owner_contract sample) history_connecting = true)
    by reflexivity.
  assert (R : @run sample history_connecting sample_World
              = Ok (tt, sample_after history_connecting))
    by (vm_compute; reflexivity).
  assert (F : @failure_event sample (EvTcpConnected (-2)) = true)
    by reflexivity.
  assert (S1 : @step sample (EvTcpConnected (-2))
                 (sample_after history_connecting)
               = Ok (tt, sample_after
                           (history_connecting
                              ++ [@EvTcpConnected sample (-2)])))
    by (vm_compute; reflexivity).
  split; [exact B|]. split; [exact R|]. split; [exact F|].
  split; [exact S1|].
  exact (@failure_releases_before_notifying sample 100%nat 200%nat
           history_connecting (EvTcpConnected (-2)) _ _ B R F S1).
Defined.

(** C3 as stated fails: a transport answers true to is_connected() right
    after its construction, and still after Initialize, with nothing
    delivered. *)
Lemma is_connected_before_any_delivery :
  @is_connected sample (this sample_World) = true /\
  deliveries (trace sample_World) = [] /\
  exists w,
    @run sample [sample_Initialize false] sample_World = Ok (tt, w) /\
    is_connected (this w) = true /\
    deliveries (trace w) = [].
Proof.
  split; [reflexivity|]. split; [reflexivity|].
  eexists. vm_compute. repeat split.
Qed.

(** C3 at work: between Connect and the delivery the answer is false. *)
Lemma is_connected_iff_nothing_outstanding_witness :
  forallb (@owner_contract sample) history_connecting = true /\
  @run sample history_connecting sample_World
  = Ok (tt, sample_after history_connecting) /\
  (is_connected (this (sample_after history_connecting)) = true <->
   length (deliveries (trace (sample_after history_connecting)))
   = connects history_connecting) /\
  (is_connected (this (sample_after history_connecting)) = false <->
   S (length (deliveries (trace (sample_after history_connecting))))
   = connects history_connecting).
Proof.
  assert (B : forallb (@owner_contract sample) history_connecting = true)
    by reflexivity.
  assert (R : @run sample history_connecting sample_World
              = Ok (tt, sample_after history_connecting))
    by (vm_compute; reflexivity).
  split; [exact B|]. split; [exact R|].
  exact (@is_connected_iff_nothing_outstanding sample 100%nat 200%nat
           history_connecting _ B R).
Defined.

(** C4 at work: the authenticator hands over socket 9 and the owner lets
    go of it inside the callback; the transport lives on. *)
Lemma socket_released_inside_callback_never_deletes_witness :
  forallb (@owner_contract sample) history_authenticating = true /\
  @run sample history_authenticating sample_World
  = Ok (tt, sample_after history_authenticating) /\
  handshaking (authenticator_ (this (sample_after history_authenticating)))
  = true /\
  destroyed_callback (sample_after history_authenticating) = true /\
  event_handler_ (this (sample_after history_authenticating))
  = Some 7%nat /\
  exists w',
    @AuthenticationDone_owner sample Drops 0 (Some 9%nat)
      (sample_after history_authenticating) = Ok (tt, w') /\
    deliveries (trace w') = [Some 9%nat] /\
    is_connected (this w') = true /\
    deleted w' = false /\
    @step sample EvChannelDestroyed w' = Err NotEnabled.
Proof.
  assert (B : forallb (@owner_contract sample) history_authenticating = true)
    by reflexivity.
  assert (R : @run sample history_authenticating sample_World
              = Ok (tt, sample_after history_authenticating))
    by (vm_compute; reflexivity).
  assert (A : handshaking
                (authenticator_ (this (sample_after history_authenticating)))
              = true) by (vm_compute; reflexivity).
  assert (G : destroyed_callback (sample_after history_authenticating) = true)
    by (vm_compute; reflexivity).
  assert (H : event_handler_ (this (sample_after history_authenticating))
              = Some 7%nat) by (vm_compute; reflexivity).
  split; [exact B|]. split; [exact R|]. split; [exact A|].
  split; [exact G|]. split; [exact H|].
  destruct (@socket_released_inside_callback_never_deletes sample
              100%nat 200%nat history_authenticating _ 0 9%nat 7%nat
              B R A G H eq_refl) as ((w' & S1 & D & I & Dl & _) & _).
  exists w'. split; [exact S1|]. split; [exact D|].
  split; [exact I|]. split; [exact Dl|].
  assert (X : Ok (tt, w')
              = @AuthenticationDone_owner sample Drops 0 (Some 9%nat)
                  (sample_after history_authenticating))
    by (symmetry; exact S1).
  vm_compute in X. injection X as ->. vm_compute. reflexivity.
Defined.

(** C5 at work, NAT traversal off. *)
Lemma Connect_configures_port_allocator_witness :
  @Connect sample (Some 1%nat) (-1) (sample_after [sample_Initialize false])
  = Ok (tt, sample_after history_connecting) /\
  exists a,
    port_allocator_ (this (sample_after history_connecting)) = Some a /\
    has_flag 8 a /\ has_flag 2 a /\ has_flag 4 a /\
    allocator_kind a = BasicPortAllocator /\
    port_range a = Some (12000, 12999).
Proof.
  assert (R : @Connect sample (Some 1%nat) (-1)
                (sample_after [sample_Initialize false])
              = Ok (tt, sample_after history_connecting))
    by (vm_compute; reflexivity).
  split; [exact R|].
  destruct (@Connect_configures_port_allocator sample _ _ _ _ R)
    as (a & P & T & PR & _ & _ & Off & _).
  destruct (Off eq_refl) as (K & St & Re).
  exists a. repeat split; assumption.
Defined.

(** C6 at work. *)
Lemma Connect_configures_socket_witness :
  @Connect sample (Some 1%nat) (-1) (sample_after [sample_Initialize true])
  = Ok (tt, sample_after [sample_Initialize true; sample_Connect (-1)]) /\
  exists s,
    connected_sockets
      (trace (sample_after [sample_Initialize true; sample_Connect (-1)]))
    = [s] /\
    receive_buffer_size s = Some 262144 /\
    send_buffer_size s = Some 292864 /\
    no_delay s = Some true /\
    ack_delay s = Some 10.
Proof.
  assert (R : @Connect sample (Some 1%nat) (-1)
                (sample_after [sample_Initialize true])
              = Ok (tt, sample_after
                          [sample_Initialize true; sample_Connect (-1)]))
    by (vm_compute; reflexivity).
  split; [exact R|].
  destruct (@Connect_configures_socket sample _ _ _ _ R)
    as (s & C & Rb & _ & Sb & Nd & Ad).
  exists s. repeat split; assumption.
Defined.

(** C7 at work: the adapter answers OK inside Connect. *)
Lemma Connect_proceeds_when_synchronous_witness :
  @Connect sample (Some 1%nat) 0 (sample_after [sample_Initialize false])
  = Ok (tt, sample_after [sample_Initialize false; sample_Connect 0]) /\
  authenticated_sockets
    (trace (sample_after [sample_Initialize false; sample_Connect 0]))
  = [Some Connect_socket] /\
  handshaking
    (authenticator_
       (this (sample_after [sample_Initialize false; sample_Connect 0])))
  = true /\
  deliveries
    (trace (sample_after [sample_Initialize false; sample_Connect 0]))
  = [].
Proof.
  assert (R : @Connect sample (Some 1%nat) 0
                (sample_after [sample_Initialize false])
              = Ok (tt, sample_after
                          [sample_Initialize false; sample_Connect 0]))
    by (vm_compute; reflexivity).
  split; [exact R|].
  destruct (@Connect_proceeds_when_synchronous sample _ _ _ _ R)
    as [_ Sync].
  assert (P : 0 <> @ERR_IO_PENDING sample) by (vm_compute; discriminate).
  destruct (Sync P) as (_ & _ & OnOk & _).
  destruct (OnOk eq_refl) as (A & _ & H & _ & D).
  repeat split; assumption.
Defined.

(** C8 as stated fails: before Connect there is no channel, and
    AddRemoteCandidate follows a NULL pointer although the callback has not
    fired. *)
Lemma AddRemoteCandidate_before_Connect_faults :
  @run sample [sample_Initialize false; @EvAddRemoteCandidate sample 5%nat]
       sample_World
  = Err NullDereference /\
  @AddRemoteCandidate sample 5%nat (sample_after [sample_Initialize false])
  = Err NullDereference /\
  deliveries (trace (sample_after [sample_Initialize false])) = [].
Proof. vm_compute. repeat split. Qed.

(** C8 at work: three candidates while the connect is pending. *)
Lemma candidates_forwarded_in_order_while_connecting_witness :
  forallb (@owner_contract sample) history_connecting = true /\
  @run sample history_connecting sample_World
  = Ok (tt, sample_after history_connecting) /\
  is_connected (this (sample_after history_connecting)) = false /\
  exists w',
    @run sample (map (@EvAddRemoteCandidate sample) [5; 6; 7]%nat)
         (sample_after history_connecting)
    = Ok (tt, w') /\
    forwarded (trace w') = [5; 6; 7]%nat.
Proof.
  assert (B : forallb (@owner_contract sample) history_connecting = true)
    by reflexivity.
  assert (R : @run sample history_connecting sample_World
              = Ok (tt, sample_after history_connecting))
    by (vm_compute; reflexivity).
  assert (N : is_connected (this (sample_after history_connecting)) = false)
    by (vm_compute; reflexivity).
  split; [exact B|]. split; [exact R|]. split; [exact N|].
  destruct (@candidates_forwarded_in_order_while_connecting sample
              100%nat 200%nat history_connecting _ [5; 6; 7]%nat B R N)
    as (_ & w' & R' & _ & _ & F).
  exists w'. split; [exact R'|exact F].
Defined.

(** * The further properties on concrete histories *)

(** X1 at work: after Initialize, Connect and a signaling request the
    name is still "video" and a second Initialize stops at a DCHECK. *)
Lemma Initialize_only_once_witness :
  @step sample (sample_Initialize false) sample_World
  = Ok (tt, sample_after [sample_Initialize false]) /\
  @run sample [sample_Connect (-1); EvRequestSignaling]
       (sample_after [sample_Initialize false])
  = Ok (tt, sample_after (history_connecting ++ [EvRequestSignaling])) /\
  name (this (sample_after (history_connecting ++ [EvRequestSignaling])))
  = "video"%string /\
  Initialize "audio" (sample_config true) (Some 8%nat)
             (Some sample_authenticator)
             (sample_after (history_connecting ++ [EvRequestSignaling]))
  = Err DCheckFailed.
Proof.
  assert (I : @step sample (sample_Initialize false) sample_World
              = Ok (tt, sample_after [sample_Initialize false]))
    by (vm_compute; reflexivity).
  assert (R : @run sample [sample_Connect (-1); EvRequestSignaling]
                (sample_after [sample_Initialize false])
              = Ok (tt, sample_after
                          (history_connecting ++ [EvRequestSignaling])))
    by (vm_compute; reflexivity).
  split; [exact I|]. split; [exact R|].
  destruct (@Initialize_only_once sample _ _ _ _ _ _ _ _ I R)
    as (_ & _ & N & _ & _ & Again).
  split; [exact N|apply Again].
Defined.

(** X2 at work: the owner may destroy the transport while it connects. *)
Lemma destructor_assertions_hold_witness :
  forallb (@owner_contract sample) history_connecting = true /\
  @run sample history_connecting sample_World
  = Ok (tt, sample_after history_connecting) /\
  event_handler_ (this (sample_after history_connecting)) = Some 7%nat /\
  exists w',
    LibjingleStreamTransport_delete (sample_after history_connecting)
    = Ok (tt, w') /\
    deleted w' = true /\
    trace w' = trace (sample_after history_connecting)
               ++ [OnTransportDeleted 7%nat].
Proof.
  assert (B : forallb (@owner_contract sample) history_connecting = true)
    by reflexivity.
  assert (R : @run sample history_connecting sample_World
              = Ok (tt, sample_after history_connecting))
    by (vm_compute; reflexivity).
  assert (H : event_handler_ (this (sample_after history_connecting))
              = Some 7%nat)
    by (vm_compute; reflexivity).
  split; [exact B|]. split; [exact R|]. split; [exact H|].
  destruct (@destructor_assertions_hold sample 100%nat 200%nat
              history_connecting _ 7%nat B R H)
    as (_ & w' & D & Dl & _ & T).
  exists w'. repeat split; assumption.
Defined.

(** X3 at work: the transport deleted itself after the owner dropped the
    socket. *)
Lemma deletion_notified_once_and_last_witness :
  @run sample history_deleted sample_World
  = Ok (tt, sample_after history_deleted) /\
  deleted (sample_after history_deleted) = true /\
  deletions (trace (sample_after history_deleted)) = 1%nat /\
  exists tr0,
    trace (sample_after history_deleted) = tr0 ++ [OnTransportDeleted 7%nat].
Proof.
  assert (R : @run sample history_deleted sample_World
              = Ok (tt, sample_after history_deleted))
    by (vm_compute; reflexivity).
  assert (D : deleted (sample_after history_deleted) = true)
    by (vm_compute; reflexivity).
  split; [exact R|]. split; [exact D|].
  destruct (@deletion_notified_once_and_last sample 100%nat 200%nat
              history_deleted _ R) as [_ Gone].
  destruct (Gone D) as (One & _ & tr0 & h & T & Hh).
  split; [exact One|]. exists tr0.
  assert (X : Some h = Some 7%nat) by (rewrite <- Hh; vm_compute; reflexivity).
  injection X as <-. exact T.
Defined.

(** X4 at work: two local candidates, in order, to handler 7. *)
Lemma local_candidates_surfaced_in_order_witness :
  @run sample history_signalled sample_World
  = Ok (tt, sample_after history_signalled) /\
  surfaced (trace (sample_after history_signalled)) = [41; 42]%nat.
Proof.
  assert (R : @run sample history_signalled sample_World
              = Ok (tt, sample_after history_signalled))
    by (vm_compute; reflexivity).
  split; [exact R|].
  destruct (@local_candidates_surfaced_in_order sample 100%nat 200%nat
              history_signalled _ R) as (A & _).
  exact A.
Defined.

(** X5 at work. *)
Lemma channel_driven_one_to_one_witness :
  @run sample history_signalled sample_World
  = Ok (tt, sample_after history_signalled) /\
  channel_connects (trace (sample_after history_signalled)) = 1%nat /\
  signaling_answers (trace (sample_after history_signalled)) = 1%nat.
Proof.
  assert (R : @run sample history_signalled sample_World
              = Ok (tt, sample_after history_signalled))
    by (vm_compute; reflexivity).
  split; [exact R|].
  exact (@channel_driven_one_to_one sample 100%nat 200%nat
           history_signalled _ R).
Defined.

(** X6 at work: once connected, one adapter was connected and handed on. *)
Lemma authenticator_receives_configured_socket_witness :
  @run sample history_connected sample_World
  = Ok (tt, sample_after history_connected) /\
  connected_sockets (trace (sample_after history_connected))
  = [Connect_socket] /\
  exists k,
    authenticated_sockets (trace (sample_after history_connected))
    = repeat (Some Connect_socket) k /\
    (k + owned_sockets (sample_after history_connected) <= 1)%nat.
Proof.
  assert (R : @run sample history_connected sample_World
              = Ok (tt, sample_after history_connected))
    by (vm_compute; reflexivity).
  split; [exact R|].
  destruct (@authenticator_receives_configured_socket sample 100%nat 200%nat
              history_connected _ R) as (C & _ & k & A & L).
  split; [exact C|]. exists k. split; [exact A|exact L].
Defined.

(** X7 at work: the channel is named "video". *)
Lemma Connect_creates_named_channel_witness :
  @step sample (sample_Initialize true) sample_World
  = Ok (tt, sample_after [sample_Initialize true]) /\
  @run sample [] (sample_after [sample_Initialize true])
  = Ok (tt, sample_after [sample_Initialize true]) /\
  @step sample (sample_Connect (-1)) (sample_after [sample_Initialize true])
  = Ok (tt, sample_after [sample_Initialize true; sample_Connect (-1)]) /\
  channel_
    (this (sample_after [sample_Initialize true; sample_Connect (-1)]))
  = Some {| channel_name := "video"; SignalRequestSignaling := true;
            SignalCandidateReady := true; channel_connect_called := true |}.
Proof.
  assert (I : @step sample (sample_Initialize true) sample_World
              = Ok (tt, sample_after [sample_Initialize true]))
    by (vm_compute; reflexivity).
  assert (R : @run sample [] (sample_after [sample_Initialize true])
              = Ok (tt, sample_after [sample_Initialize true]))
    by reflexivity.
  assert (C : @step sample (sample_Connect (-1))
                (sample_after [sample_Initialize true])
              = Ok (tt, sample_after
                          [sample_Initialize true; sample_Connect (-1)]))
    by (vm_compute; reflexivity).
  split; [exact I|]. split; [exact R|]. split; [exact C|].
  exact (proj1 (@Connect_creates_named_channel sample _ _ _ _ _ _ _ _ _ _ _
                  I R C eq_refl)).
Defined.



